(** * PoE2 trade client: a shallow embedding of [trade_client/client.py]
    and of the entry point [app.py], with the properties of its
    specification stated and settled against that embedding.

    Python values that come from the remote service are decoded JSON; the
    header maps are Python [dict] objects, which are mutable and shared by
    reference, so they live in a store.  Every client method is a function
    in a state-and-exception monad whose state holds that store, the lazily
    created HTTP session and the trace of what the client did to the outside
    world (requests sent, log records, callback invocations, the stream it
    opened). *)

From stdpp Require Import base strings list gmap fin_maps.
From Stdlib Require Import ZArith Lia Ascii.

Local Open Scope string_scope.
Local Open Scope list_scope.
Local Open Scope Z_scope.
Set Warnings "-register-all".

(** ** Decoded JSON and the Python operators applied to it *)

Module Py.

(** What [json.loads] / [Response.json()] hand back.  A [dict] keeps its
    insertion order; a key is looked up at its first binding.  Numbers are
    taken to be integers: the client never computes with one. *)
Inductive json : Type :=
| JNull
| JBool (b : bool)
| JNum (z : Z)
| JStr (s : string)
| JArr (items : list json)
| JObj (fields : list (string * json)).

(** The exceptions the client can meet. *)
Inductive exn : Type :=
| HTTPError (status_code : Z)   (* requests.HTTPError, from raise_for_status *)
| RequestException              (* raised by Session.send: no response at all *)
| JSONDecodeError
| KeyError (key : string)
| TypeError
| AttributeError
| CallbackError.                (* whatever a caller-supplied callback raises *)

Inductive result (A : Type) : Type :=
| Ok (a : A)
| Raise (e : exn).
Arguments Ok {A} a.
Arguments Raise {A} e.

Definition rbind {A B} (r : result A) (k : A -> result B) : result B :=
  match r with
  | Ok a => k a
  | Raise e => Raise e
  end.

Fixpoint dict_get (k : string) (fields : list (string * json)) : option json :=
  match fields with
  | [] => None
  | (k', v) :: rest => if String.eqb k' k then Some v else dict_get k rest
  end.

(** Keys of a dict in insertion order, each once. *)
Fixpoint dict_keys (fields : list (string * json)) : list string :=
  match fields with
  | [] => []
  | (k, _) :: rest => k :: List.filter (fun k' => negb (String.eqb k' k)) (dict_keys rest)
  end.

(** [sub in s] on two [str]. *)
Fixpoint str_contains (sub s : string) : bool :=
  String.prefix sub s ||
  match s with
  | EmptyString => false
  | String _ s' => str_contains sub s'
  end.

Definition is_str (k : string) (v : json) : bool :=
  match v with
  | JStr s => String.eqb s k
  | _ => false
  end.

(** [k in v] for a [str] k: key test on a dict, element test on a list,
    substring test on a str, TypeError on anything else. *)
Definition py_in (k : string) (v : json) : result bool :=
  match v with
  | JObj fields => Ok (match dict_get k fields with Some _ => true | None => false end)
  | JArr items => Ok (existsb (is_str k) items)
  | JStr s => Ok (str_contains k s)
  | JNull | JBool _ | JNum _ => Raise TypeError
  end.

(** [v[k]] for a [str] k. *)
Definition py_getitem (k : string) (v : json) : result json :=
  match v with
  | JObj fields =>
      match dict_get k fields with
      | Some x => Ok x
      | None => Raise (KeyError k)
      end
  | _ => Raise TypeError
  end.

(** [v.get(k, dflt)]: only a dict has the method. *)
Definition py_get (k : string) (dflt : json) (v : json) : result json :=
  match v with
  | JObj fields =>
      match dict_get k fields with
      | Some x => Ok x
      | None => Ok dflt
      end
  | _ => Raise AttributeError
  end.

(** Truth value, as [if v] / [not v] take it. *)
Definition truthy (v : json) : bool :=
  match v with
  | JNull => false
  | JBool b => b
  | JNum z => negb (z =? 0)
  | JStr s => negb (String.eqb s EmptyString)
  | JArr items => match items with [] => false | _ => true end
  | JObj fields => match fields with [] => false | _ => true end
  end.

Fixpoint chars (s : string) : list json :=
  match s with
  | EmptyString => []
  | String c s' => JStr (String c EmptyString) :: chars s'
  end.

(** The elements [len(v)] counts and [for r in v] / [",".join(v)] visit. *)
Definition py_iter (v : json) : result (list json) :=
  match v with
  | JArr items => Ok items
  | JStr s => Ok (chars s)
  | JObj fields => Ok (JStr <$> dict_keys fields)
  | JNull | JBool _ | JNum _ => Raise TypeError
  end.

Definition py_len (v : json) : result nat :=
  rbind (py_iter v) (fun items => Ok (length items)).

(** Every element of a joined sequence must be a [str]. *)
Fixpoint all_str (items : list json) : result (list string) :=
  match items with
  | [] => Ok []
  | JStr s :: rest => rbind (all_str rest) (fun ss => Ok (s :: ss))
  | _ :: _ => Raise TypeError
  end.

(** [sep.join(items)]. *)
Definition py_join (sep : string) (items : list json) : result string :=
  rbind (all_str items) (fun ss => Ok (String.concat sep ss)).

(** [s.replace(old, new)] for a non-empty [old]: every non-overlapping
    occurrence, left to right.  [skip] counts the characters of an
    occurrence still to be dropped. *)
Fixpoint replace_from (old new : string) (skip : nat) (s : string) : string :=
  match s with
  | EmptyString => EmptyString
  | String c s' =>
      match skip with
      | S k => replace_from old new k s'
      | O =>
          if String.prefix old s
          then new +:+ replace_from old new (Nat.pred (String.length old)) s'
          else String c (replace_from old new O s')
      end
  end.

Definition str_replace (old new s : string) : string :=
  replace_from old new O s.

End Py.
Export Py.

(** ** The pager *)

Section Pager.
Context {A : Type}.

(** The [for r in all_results] loop of [_build_pages], carrying [pages]
    and [page]. *)
Fixpoint pages_loop (page_width : Z) (rs : list A)
    (pages : list (list A)) (page : list A) : list (list A) * list A :=
  match rs with
  | [] => (pages, page)
  | r :: rs' =>
      if Z.of_nat (length page) <? page_width
      then pages_loop page_width rs' pages (page ++ [r])
      else pages_loop page_width rs' (pages ++ [page]) [r]
  end.

Definition _build_pages (all_results : list A) (page_width : Z) : list (list A) :=
  if Z.of_nat (length all_results) <=? page_width then [all_results]
  else
    let '(pages, page) := pages_loop page_width all_results [] [] in
    match page with
    | [] => pages
    | _ :: _ => pages ++ [page]
    end.

End Pager.

(** ** Requests, responses and the world the client acts on *)

(** Identity of a Python [dict] object holding a header map. *)
Definition loc := positive.

(** [requests.Request(method, url, params, headers, data)].  [headers] is a
    reference to the dict the caller passed; [data] is the document that
    [json.dumps] serialises. *)
Record Request := mkRequest {
  method : string;
  url : string;
  params : list (string * json);
  headers : loc;
  data : option json
}.

(** [req.prepare()]: the header dict is read at this point. *)
Record PreparedRequest := mkPrepared {
  p_method : string;
  p_url : string;
  p_params : list (string * json);
  p_headers : gmap string string;
  p_data : option json
}.

(** A [requests.Response]: its status code and what [res.json()] gives,
    [None] when the body is not valid JSON. *)
Record Response := mkResponse {
  status_code : Z;
  json_body : option json
}.

Inductive send_outcome : Type :=
| Sent (res : Response)
| SendFailed.

(** [Response.raise_for_status] raises for 4xx and 5xx. *)
Definition raises_for_status (res : Response) : bool :=
  (400 <=? status_code res) && (status_code res <? 600).

Inductive log_level : Type := DEBUG | INFO | WARNING | ERROR.

Inductive log_msg : Type :=
| MsgRequestToSend (req : Request)
| MsgFullResponse (res : Response)
| MsgHTTPError (res : Response)
| MsgWhisperNotJSON
| MsgReceivedMsg (msg : string)
| MsgInvalidJSONMessage
| MsgNoResultField
| MsgNoResults
| MsgWhisperError (message : json).

Inductive event : Type :=
| EvLog (lvl : log_level) (msg : log_msg)
| EvSend (req : PreparedRequest)            (* Session.send *)
| EvCallback (arg : json)                   (* the caller's callback is called *)
| EvEnableTrace                             (* websocket.enableTrace(True) *)
| EvWsRun (ws_url : string) (header : gmap string string) (search_id : json).
    (* WebSocketApp(url, on_message = handler for search_id, header).run_forever() *)

Record state := mkState {
  heap : gmap loc (gmap string string);   (* the header dicts, by identity *)
  sess : bool;                            (* self._sess has been created *)
  trace : list event                      (* oldest first *)
}.

Record ClientConfig := mkClientConfig {
  league : string;
  poesessid : string;
  base_url : string;
  default_headers : loc;
  log_level_of : Z
}.

(** The value the [default_factory] of [ClientConfig.default_headers] builds. *)
Definition default_header_map : gmap string string :=
  <["User-Agent" := "Mozilla/5.0 (Windows NT 10.0; Win64; x64; rv:109.0) Gecko/20100101 Firefox/111.0"]>
  (<["Accept" := "*/*"]>
  (<["Content-Type" := "application/json"]> ∅)).

Definition default_url : string := "https://www.pathofexile.com/api/trade2/".

Definition logging_WARNING : Z := 30.
Definition logging_DEBUG : Z := 10.

Record SearchConfig := mkSearchConfig {
  item_name : string;
  item_type : string;
  online_opt : string;
  price_sort : string;
  stat_filters : json;
  query_filters : json;
  live : bool;
  live_on_item_callback : option (json -> result unit)
}.

Definition sent_requests (t : list event) : list PreparedRequest :=
  omap (fun e => match e with EvSend p => Some p | _ => None end) t.

(** The fetch calls among them: the client's only GET. *)
Definition fetch_calls (t : list event) : list PreparedRequest :=
  List.filter (fun p => String.eqb (p_method p) "GET") (sent_requests t).

Definition callback_args (t : list event) : list json :=
  omap (fun e => match e with EvCallback a => Some a | _ => None end) t.

Definition streams_opened (t : list event) : list (string * json) :=
  omap (fun e => match e with EvWsRun u _ q => Some (u, q) | _ => None end) t.

Definition logged (t : list event) : list (log_level * log_msg) :=
  omap (fun e => match e with EvLog l m => Some (l, m) | _ => None end) t.

(** Header maps that left the process: on an HTTP request or on the stream. *)
Definition outbound_headers (t : list event) : list (gmap string string) :=
  omap (fun e => match e with
                 | EvSend p => Some (p_headers p)
                 | EvWsRun _ h _ => Some h
                 | _ => None
                 end) t.

(** ** The state-and-exception monad *)

Definition M (A : Type) : Type := state -> state * result A.

Definition ret {A} (a : A) : M A := fun s => (s, Ok a).

Definition raise {A} (e : exn) : M A := fun s => (s, Raise e).

Definition bind {A B} (m : M A) (k : A -> M B) : M B :=
  fun s =>
    match m s with
    | (s', Ok a) => k a s'
    | (s', Raise e) => (s', Raise e)
    end.

Definition lift {A} (r : result A) : M A := fun s => (s, r).

(** [try: m  except <exceptions selected by handles>: h] *)
Definition try_except {A} (m : M A) (handles : exn -> bool) (h : M A) : M A :=
  fun s =>
    match m s with
    | (s', Ok a) => (s', Ok a)
    | (s', Raise e) => if handles e then h s' else (s', Raise e)
    end.

Declare Scope py_scope.
Delimit Scope py_scope with py.
Notation "x <- m ;; k" := (bind m (fun x => k))
  (at level 100, m at next level, right associativity) : py_scope.
Notation "m ;;; k" := (bind m (fun _ => k))
  (at level 100, right associativity) : py_scope.
Local Open Scope py_scope.

Definition emit (e : event) : M unit :=
  fun s => (mkState (heap s) (sess s) (trace s ++ [e]), Ok tt).

Definition log (lvl : log_level) (msg : log_msg) : M unit := emit (EvLog lvl msg).

Definition get_trace : M (list event) := fun s => (s, Ok (trace s)).

Definition ensure_session : M unit :=
  fun s => (mkState (heap s) true (trace s), Ok tt).

(** A dict display [{...}] allocates a new object. *)
Definition dict_new (d : gmap string string) : M loc :=
  fun s =>
    let l := fresh (dom (heap s)) in
    (mkState (<[l := d]> (heap s)) (sess s) (trace s), Ok l).

Definition dict_read (l : loc) : M (gmap string string) :=
  fun s => (s, Ok (heap s !!! l)).

(** [d[k] = v] on the object at [l]. *)
Definition dict_setitem (l : loc) (k v : string) : M unit :=
  fun s => (mkState (<[l := <[k := v]> (heap s !!! l)]> (heap s)) (sess s) (trace s), Ok tt).

Definition is_JSONDecodeError (e : exn) : bool :=
  match e with JSONDecodeError => true | _ => false end.

(** [res.json()] *)
Definition response_json (res : Response) : M json :=
  match json_body res with
  | Some v => ret v
  | None => raise JSONDecodeError
  end.

(** ** [TradeClient] *)

Section TradeClient.

(** The remote service and the network: what [Session.send] gives for a
    prepared request, given the requests sent before it. *)
Variable net : list PreparedRequest -> PreparedRequest -> send_outcome.

(** [json.loads] on a text frame; [None] stands for JSONDecodeError. *)
Variable json_loads : string -> option json.

(** [format(v)] for a decoded value that is not a [str]. *)
Variable py_repr : json -> string.

(** The dict that the default argument [extras = {}] of [_build_headers]
    denotes: one object, created when the [def] is executed and shared by
    every call that passes no [extras]. *)
Variable extras_default : loc.

(** [self.config] *)
Variable config : ClientConfig.

Definition format_value (v : json) : string :=
  match v with
  | JStr s => s
  | _ => py_repr v
  end.

Definition _build_headers (extras : loc) : M loc :=
  d <- dict_read (default_headers config) ;;
  e <- dict_read extras ;;
  h <- dict_new (e ∪ d) ;;            (* {**d, **e}: a binding of e wins *)
  dict_setitem h "Cookie" ("POESESSID=" +:+ poesessid config) ;;;
  ret h.

Definition _build_search_url : string :=
  base_url config +:+ "search/" +:+ league config.

(** [search_results] are the elements the join iterates over. *)
Definition _build_fetch_url (search_results : list json) : result string :=
  rbind (py_join "," search_results)
        (fun ids => Ok (base_url config +:+ "fetch/" +:+ ids)).

Definition _build_livesearch_url (query_id : json) : string :=
  str_replace "https" "wss" (base_url config)
  +:+ ("live/" +:+ league config +:+ "/" +:+ format_value query_id).

Definition _build_whisper_url : string :=
  base_url config +:+ "whisper".

Definition prepare (req : Request) : M PreparedRequest :=
  hs <- dict_read (headers req) ;;
  ret (mkPrepared (method req) (url req) (params req) hs (data req)).

Definition _request (req : Request) (raise_error : bool) : M Response :=
  ensure_session ;;;
  log DEBUG (MsgRequestToSend req) ;;;
  p <- prepare req ;;
  t <- get_trace ;;
  emit (EvSend p) ;;;
  match net (sent_requests t) p with
  | SendFailed => raise RequestException
  | Sent res =>
      log DEBUG (MsgFullResponse res) ;;;
      if raise_error then
        if raises_for_status res then
          log ERROR (MsgHTTPError res) ;;;
          raise (HTTPError (status_code res))
        else ret res
      else ret res
  end.

Definition _search (req : json) : M json :=
  h <- _build_headers extras_default ;;
  res <- _request (mkRequest "POST" _build_search_url [] h (Some req)) true ;;
  response_json res.

Definition _fetch (built_url : string) (query_id : json) : M json :=
  h <- _build_headers extras_default ;;
  res <- _request (mkRequest "GET" built_url [("query", query_id)] h None) true ;;
  response_json res.

Definition invalid_json_response : json :=
  JObj [("error", JObj [("message", JStr "Invalid JSON response")])].

Definition _whisper (whisper_token : json) : M json :=
  x <- dict_new {["X-Requested-With" := "XMLHttpRequest"]} ;;
  h <- _build_headers x ;;
  res <- _request (mkRequest "POST" _build_whisper_url [] h
                     (Some (JObj [("token", whisper_token)]))) false ;;
  (* Not all responses might be JSON *)
  try_except (response_json res) is_JSONDecodeError
    (log WARNING MsgWhisperNotJSON ;;; ret invalid_json_response).

Definition _build_trade_request (cfg : SearchConfig) : json :=
  JObj [("query", JObj [("status", JObj [("option", JStr (online_opt cfg))]);
                        ("name", JStr (item_name cfg));
                        ("type", JStr (item_type cfg));
                        ("stats", stat_filters cfg);
                        ("filters", query_filters cfg)]);
        ("sort", JObj [("price", JStr (price_sort cfg))])].

(** The closure [on_message] that [_build_ws_message_handler] returns. *)
Definition _build_ws_message_handler (search_id : json)
    (fetch_callback : option (json -> result unit)) (msg : string) : M unit :=
  log DEBUG (MsgReceivedMsg msg) ;;;
  match json_loads msg with
  | None => log WARNING MsgInvalidJSONMessage
  | Some msg_data =>
      has_new <- lift (py_in "new" msg_data) ;;
      if has_new : bool then
        new_item <- lift (py_getitem "new" msg_data) ;;
        ids <- lift (py_iter new_item) ;;
        built_url <- lift (_build_fetch_url ids) ;;
        fetch_res <- _fetch built_url search_id ;;
        match fetch_callback with
        | Some cb => emit (EvCallback fetch_res) ;;; lift (cb fetch_res)
        | None => ret tt
        end
      else ret tt
  end.

Definition empty_result : json := JObj [("result", JArr [])].

Definition _normal_search (cfg : SearchConfig) : M json :=
  search_res <- _search (_build_trade_request cfg) ;;
  has_result <- lift (py_in "result" search_res) ;;
  if negb has_result then
    log WARNING MsgNoResultField ;;; ret empty_result
  else
    r <- lift (py_getitem "result" search_res) ;;
    all_results <- lift (py_iter r) ;;
    match _build_pages all_results 10 with
    | [] => log INFO MsgNoResults ;;; ret empty_result
    | page0 :: _ =>
        (* Only going to show the first 10 results to avoid rate limiting *)
        built_url <- lift (_build_fetch_url page0) ;;
        query_id <- lift (py_getitem "id" search_res) ;;
        _fetch built_url query_id
    end.

Definition _live_search (cfg : SearchConfig) : M unit :=
  (if log_level_of config <=? logging_DEBUG then emit EvEnableTrace else ret tt) ;;;
  (* first have to get the search id *)
  search_res <- _search (_build_trade_request cfg) ;;
  search_id <- lift (py_getitem "id" search_res) ;;
  h <- _build_headers extras_default ;;
  hs <- dict_read h ;;
  emit (EvWsRun (_build_livesearch_url search_id) hs search_id).

Definition search (cfg : SearchConfig) : M (option json) :=
  if live cfg then _live_search cfg ;;; ret None
  else r <- _normal_search cfg ;; ret (Some r).

Definition whisper (listing : json) : M json :=
  token <- lift (py_getitem "whisper_token" listing) ;;
  r <- _whisper token ;;
  has_error <- lift (py_in "error" r) ;;
  (if has_error : bool then
     e <- lift (py_getitem "error" r) ;;
     m <- lift (py_getitem "message" e) ;;
     log WARNING (MsgWhisperError m)
   else ret tt) ;;;
  ret r.

(** Frames handed to a message handler one after the other, as a plain
    loop over them does. *)
Fixpoint feed (on_message : string -> M unit) (frames : list string) : M unit :=
  match frames with
  | [] => ret tt
  | f :: rest => on_message f ;;; feed on_message rest
  end.

(** *** Vocabulary for the statements below *)

(** The header map [_build_headers(extras)] produces in state [s]. *)
Definition built_headers (s : state) (extras : loc) : gmap string string :=
  <["Cookie" := "POESESSID=" +:+ poesessid config]>
    ((heap s !!! extras) ∪ (heap s !!! default_headers config)).

Definition add_events (s : state) (evs : list event) : state :=
  mkState (heap s) (sess s) (trace s ++ evs).

(** One HTTP round trip as every method performs it: build the headers,
    then [_request]. *)
Definition call (m u : string) (ps : list (string * json)) (d : option json)
    (extras : loc) (raise_error : bool) : M Response :=
  h <- _build_headers extras ;;
  _request (mkRequest m u ps h d) raise_error.

(** The GET that a live notification for [ids] triggers when it arrives
    in state [s], for a handler built with [search_id]. *)
Definition notified_get_in (search_id : json) (s : state) (ids : list string)
    : PreparedRequest :=
  mkPrepared "GET" (base_url config +:+ "fetch/" +:+ String.concat "," ids)
    [("query", search_id)] (built_headers s extras_default) None.

(** The state once the dict display [{"X-Requested-With": ...}] of
    [_whisper] has been evaluated in [s], and the POST that follows. *)
Definition whisper_extras : gmap string string :=
  {["X-Requested-With" := "XMLHttpRequest"]}.

Definition with_whisper_extras (s : state) : state :=
  mkState (<[fresh (dom (heap s)) := whisper_extras]> (heap s)) (sess s) (trace s).

Definition whisper_post (s : state) (whisper_token : json) : PreparedRequest :=
  mkPrepared "POST" _build_whisper_url []
    (built_headers (with_whisper_extras s) (fresh (dom (heap s))))
    (Some (JObj [("token", whisper_token)])).

(** What [_whisper] returns for a response. *)
Definition whisper_value (res : Response) : json :=
  match json_body res with
  | Some v => v
  | None => invalid_json_response
  end.

(** A request as it appears on the wire, headers apart. *)
Definition request_line (p : PreparedRequest)
    : string * string * list (string * json) * option json :=
  (p_method p, p_url p, p_params p, p_data p).

(** What [_request] makes of the outcome of [Session.send]. *)
Definition response_outcome (raise_error : bool) (out : send_outcome) : result Response :=
  match out with
  | SendFailed => Raise RequestException
  | Sent res =>
      if raise_error && raises_for_status res then Raise (HTTPError (status_code res))
      else Ok res
  end.

Definition body_of (res : Response) : result json :=
  match json_body res with
  | Some v => Ok v
  | None => Raise JSONDecodeError
  end.

(** What [_search] and [_fetch] return or raise. *)
Definition json_outcome (out : send_outcome) : result json :=
  rbind (response_outcome true out) body_of.

(** What one round trip adds to the trace. *)
Definition round_trip_events (raise_error : bool) (req : Request)
    (p : PreparedRequest) (out : send_outcome) : list event :=
  [EvLog DEBUG (MsgRequestToSend req); EvSend p] ++
  match out with
  | SendFailed => []
  | Sent res =>
      EvLog DEBUG (MsgFullResponse res) ::
      (if raise_error && raises_for_status res then [EvLog ERROR (MsgHTTPError res)] else [])
  end.

(** The state after a round trip started in [s] with the extras at [x]:
    one more dict (the merged headers), a session, a longer trace. *)
Definition after_call (s : state) (x : loc) (evs : list event) : state :=
  mkState (<[fresh (dom (heap s)) := built_headers s x]> (heap s)) true (trace s ++ evs).

(** The service answers [out] to a request with this line, whatever the
    headers, after the requests [hist]. *)
Definition answers (hist : list PreparedRequest) (m u : string)
    (ps : list (string * json)) (d : option json) (out : send_outcome) : Prop :=
  forall hs, net hist (mkPrepared m u ps hs d) = out.

(** The headers the service requires on every call. *)
Definition carries_required (hs : gmap string string) : Prop :=
  hs !! "User-Agent"
    = Some "Mozilla/5.0 (Windows NT 10.0; Win64; x64; rv:109.0) Gecko/20100101 Firefox/111.0" /\
  hs !! "Accept" = Some "*/*" /\
  hs !! "Content-Type" = Some "application/json" /\
  hs !! "Cookie" = Some ("POESESSID=" +:+ poesessid config).

(** The store as the constructors leave it: the configuration's header
    dict holds what its default factory built, and the default-argument
    dict of [_build_headers] is the empty dict it was created as. *)
Definition defaults_in_place (s : state) : Prop :=
  heap s !! default_headers config = Some default_header_map /\
  heap s !! extras_default = Some ∅.

(** What a run may do to the world: allocate dicts without touching an
    existing one, and extend the trace, with the required headers on
    everything outbound if the defaults were in place. *)
Definition step_ok (s s' : state) : Prop :=
  heap s ⊆ heap s' /\
  exists evs, trace s' = trace s ++ evs /\
    (defaults_in_place s -> Forall carries_required (outbound_headers evs)).

(** The header map on the stream that [_live_search] opens in [s]. *)
Definition open_stream (u : string) (search_id : json) : M unit :=
  h <- _build_headers extras_default ;;
  hs <- dict_read h ;;
  emit (EvWsRun u hs search_id).

(** The entry points through which the client acts on the world. *)
Inductive operation : Type :=
| OpBuildHeaders (extras : loc)
| OpSearchCall (req : json)
| OpFetch (built_url : string) (query_id : json)
| OpSearch (cfg : SearchConfig)
| OpWhisper (listing : json)
| OpOnMessage (search_id : json) (cb : option (json -> result unit)) (msg : string).

Definition discard {A} (m : M A) : M unit := _ <- m ;; ret tt.

Definition run_op (op : operation) : M unit :=
  match op with
  | OpBuildHeaders extras => discard (_build_headers extras)
  | OpSearchCall req => discard (_search req)
  | OpFetch u q => discard (_fetch u q)
  | OpSearch cfg => discard (search cfg)
  | OpWhisper listing => discard (whisper listing)
  | OpOnMessage q cb msg => _build_ws_message_handler q cb msg
  end.

Fixpoint run_ops (ops : list operation) : M unit :=
  match ops with
  | [] => ret tt
  | op :: rest => fun s => run_ops rest (run_op op s).1
  end.

End TradeClient.

(** ** The entry point's reading of what [client.search] returned
    ([app.py], [main], from the first test on [search_res] to the branch
    on ['id']) *)

Inductive main_branch : Type :=
| NoItemsFound
| FetchShaped (all_items : json) (total : nat)
| SearchShaped (query_id : json) (all_result_ids : json) (total : nat).

Definition main_classify (search_res : option json) : result main_branch :=
  match search_res with
  | None => Ok NoItemsFound
  | Some sr =>
      if negb (truthy sr) then Ok NoItemsFound else
      rbind (py_in "result" sr) (fun has_result =>
      if negb has_result then Ok NoItemsFound else
      rbind (py_getitem "result" sr) (fun r =>
      if negb (truthy r) then Ok NoItemsFound else
      rbind (py_in "id" sr) (fun has_id =>
      if negb has_id then
        rbind (py_get "result" (JArr []) sr) (fun all_items =>
        rbind (py_len all_items) (fun total =>
        Ok (FetchShaped all_items total)))
      else
        rbind (py_getitem "id" sr) (fun query_id =>
        rbind (py_getitem "result" sr) (fun all_result_ids =>
        rbind (py_len all_result_ids) (fun total =>
        Ok (SearchShaped query_id all_result_ids total)))))))
  end.

(** ** A decoder for a fragment of JSON

    Objects, arrays, strings without escapes, integers and the three
    literals, with blanks between tokens; everything else is rejected.
    It instantiates [json_loads] where a statement is run on concrete
    frames. *)

Module MiniJson.

Local Open Scope char_scope.

Definition dquote : ascii := "034".

Definition frame_text (pieces : list string) : string :=
  String.concat (String dquote EmptyString) pieces.

Definition is_blank (c : ascii) : bool :=
  Ascii.eqb c " " || Ascii.eqb c "009" || Ascii.eqb c "010" || Ascii.eqb c "013".

Fixpoint skip (cs : list ascii) : list ascii :=
  match cs with
  | c :: rest => if is_blank c then skip rest else cs
  | [] => []
  end.

Definition digit_of (c : ascii) : option Z :=
  let n := Z.of_nat (nat_of_ascii c) in
  if ((48 <=? n) && (n <=? 57))%Z then Some (n - 48)%Z else None.

Fixpoint take_digits (acc : Z) (cs : list ascii) : Z * list ascii :=
  match cs with
  | c :: rest =>
      match digit_of c with
      | Some d => take_digits (10 * acc + d)%Z rest
      | None => (acc, cs)
      end
  | [] => (acc, [])
  end.

(** The characters up to the closing quote. *)
Fixpoint take_string (cs : list ascii) : option (string * list ascii) :=
  match cs with
  | [] => None
  | c :: rest =>
      if Ascii.eqb c dquote then Some (EmptyString, rest)
      else if Ascii.eqb c "\" then None
      else match take_string rest with
           | Some (s, rest') => Some (String c s, rest')
           | None => None
           end
  end.

(** [d[k] = v]: a key already present keeps its place. *)
Fixpoint dict_set (k : string) (v : json) (fields : list (string * json))
    : list (string * json) :=
  match fields with
  | [] => [(k, v)]
  | (k', v') :: rest =>
      if String.eqb k' k then (k', v) :: rest else (k', v') :: dict_set k v rest
  end.

Fixpoint value (fuel : nat) (cs : list ascii) : option (json * list ascii) :=
  match fuel with
  | O => None
  | S n =>
      match skip cs with
      | "n" :: "u" :: "l" :: "l" :: rest => Some (JNull, rest)
      | "t" :: "r" :: "u" :: "e" :: rest => Some (JBool true, rest)
      | "f" :: "a" :: "l" :: "s" :: "e" :: rest => Some (JBool false, rest)
      | "[" :: rest =>
          match skip rest with
          | "]" :: rest' => Some (JArr [], rest')
          | _ => match elements n rest with
                 | Some (items, rest') => Some (JArr items, rest')
                 | None => None
                 end
          end
      | "{" :: rest =>
          match skip rest with
          | "}" :: rest' => Some (JObj [], rest')
          | _ => match members n rest [] with
                 | Some (fields, rest') => Some (JObj fields, rest')
                 | None => None
                 end
          end
      | "-" :: c :: rest =>
          match digit_of c with
          | Some d => let '(z, rest') := take_digits d rest in Some (JNum (- z)%Z, rest')
          | None => None
          end
      | c :: rest =>
          if Ascii.eqb c dquote then
            match take_string rest with
            | Some (s, rest') => Some (JStr s, rest')
            | None => None
            end
          else
            match digit_of c with
            | Some d => let '(z, rest') := take_digits d rest in Some (JNum z, rest')
            | None => None
            end
      | [] => None
      end
  end
with elements (fuel : nat) (cs : list ascii) : option (list json * list ascii) :=
  match fuel with
  | O => None
  | S n =>
      match value n cs with
      | Some (v, rest) =>
          match skip rest with
          | "," :: rest' =>
              match elements n rest' with
              | Some (vs, rest'') => Some (v :: vs, rest'')
              | None => None
              end
          | "]" :: rest' => Some ([v], rest')
          | _ => None
          end
      | None => None
      end
  end
with members (fuel : nat) (cs : list ascii) (acc : list (string * json))
    : option (list (string * json) * list ascii) :=
  match fuel with
  | O => None
  | S n =>
      match skip cs with
      | c :: rest =>
          if Ascii.eqb c dquote then
            match take_string rest with
            | Some (k, rest1) =>
                match skip rest1 with
                | ":" :: rest2 =>
                    match value n rest2 with
                    | Some (v, rest3) =>
                        match skip rest3 with
                        | "," :: rest4 => members n rest4 (dict_set k v acc)
                        | "}" :: rest4 => Some (dict_set k v acc, rest4)
                        | _ => None
                        end
                    | None => None
                    end
                | _ => None
                end
            | None => None
            end
          else None
      | [] => None
      end
  end.

Definition loads (s : string) : option json :=
  let cs := String.list_ascii_of_string s in
  match value (S (length cs)) cs with
  | Some (v, rest) => match skip rest with [] => Some v | _ => None end
  | None => None
  end.

End MiniJson.

(** The three frames of the live-dispatcher scenario:
    [not json], [{"new":["a","b"]}] and [{"other":1}]. *)
Definition frame_not_json : string := "not json".
Definition frame_new_a_b : string :=
  MiniJson.frame_text ["{"; "new"; ":["; "a"; ","; "b"; "]}"].
Definition frame_other_1 : string :=
  MiniJson.frame_text ["{"; "other"; ":1}"].

(** [ceil(l / p)] for a positive [p]. *)
Definition ceil_div (l p : Z) : Z := (l + p - 1) / p.

(** ** Concrete worlds

    A client configured as [app.py] does, the store right after the
    configuration was built, and mocked services. *)

Module Scenario.

Definition config0 : ClientConfig :=
  mkClientConfig "Standard" "0123456789abcdef" default_url 1%positive logging_WARNING.

(** The default-argument dict of [_build_headers]. *)
Definition extras0 : loc := 2%positive.

Definition state0 : state :=
  mkState (<[1%positive := default_header_map]> (<[2%positive := ∅]> ∅)) false [].

Definition tabula : SearchConfig :=
  mkSearchConfig "Tabula Rasa" "Simple Robe" "online" "asc"
    (JArr [JObj [("type", JStr "and"); ("filters", JArr []); ("disabled", JBool false)]])
    (JObj []) false None.

Definition tabula_live (cb : option (json -> result unit)) : SearchConfig :=
  mkSearchConfig "Tabula Rasa" "Simple Robe" "online" "asc"
    (JArr [JObj [("type", JStr "and"); ("filters", JArr []); ("disabled", JBool false)]])
    (JObj []) true cb.

Definition ids23 : list string :=
  ["id01"; "id02"; "id03"; "id04"; "id05"; "id06"; "id07"; "id08"; "id09"; "id10";
   "id11"; "id12"; "id13"; "id14"; "id15"; "id16"; "id17"; "id18"; "id19"; "id20";
   "id21"; "id22"; "id23"].

Definition hydrated (id : string) : json :=
  JObj [("id", JStr id); ("listing", JObj []); ("item", JObj [])].

Definition ok_response (body : json) : send_outcome :=
  Sent (mkResponse 200 (Some body)).

(** A service that answers every POST with [search_out] and every other
    request with [fetch_out]. *)
Definition mock (search_out fetch_out : send_outcome)
    : list PreparedRequest -> PreparedRequest -> send_outcome :=
  fun _ p => if String.eqb (p_method p) "POST" then search_out else fetch_out.

Definition search_fields (ids : list string) : list (string * json) :=
  [("id", JStr "q1"); ("complexity", JNum 5);
   ("result", JArr (JStr <$> ids)); ("total", JNum (Z.of_nat (length ids)))].

Definition search_body (ids : list string) : json := JObj (search_fields ids).

(** The end-to-end scenario: 23 ids from the search endpoint, ten hydrated
    items per fetch call. *)
Definition ten_items : json := JArr (hydrated <$> take 10 ids23).
Definition net23 := mock (ok_response (search_body ids23))
                         (ok_response (JObj [("result", ten_items)])).

(** No match: the search endpoint returns an empty result list. *)
Definition net_no_match := mock (ok_response (search_body []))
                                (ok_response (JObj [("result", JArr [])])).

(** The search endpoint answers without a result field. *)
Definition net_malformed := mock (ok_response (JObj [("error", JStr "bad query")]))
                                 (ok_response (JObj [("result", JArr [])])).

(** The fetch endpoint is down. *)
Definition net_fetch_500 := mock (ok_response (search_body ["a"; "b"]))
                                 (Sent (mkResponse 500 None)).

(** The search endpoint refuses the session. *)
Definition net_search_403 := mock (Sent (mkResponse 403 None))
                                  (ok_response (JObj [("result", JArr [])])).

(** Whisper answers 400 with an error that is a bare string. *)
Definition net_whisper_400 :=
  mock (Sent (mkResponse 400 (Some (JObj [("error", JStr "Forbidden")])))) SendFailed.

(** Whisper answers 429 with an HTML page. *)
Definition net_whisper_html := mock (Sent (mkResponse 429 None)) SendFailed.

Definition listing0 : json :=
  JObj [("method", JStr "psapi"); ("whisper", JStr "@seller hi");
        ("whisper_token", JStr "tok")].

Definition repr0 : json -> string := fun _ => "?".

Definition accept_item : json -> result unit := fun _ => Ok tt.

End Scenario.

(** ** The entry point ([app.py])

    [main] prints, sleeps and writes a file besides driving the client;
    these go to a console log of their own, next to the client's state. *)

Module Entry.

Inductive printed : Type :=
| MsgSetSessid                 (* Please set POESESSID in your environment ... *)
| MsgNoItems                   (* No items found for the given search. *)
| MsgValue (v : json)          (* print(search_res) *)
| MsgNoId                      (* No 'id' found in response. ... *)
| MsgFound (total : nat)       (* Found {total} items. *)
| MsgFetchingAll (total : nat) (* Found {total} items. Fetching them all... *)
| MsgNoResultStopping          (* No 'result' field in fetch response, stopping. *)
| MsgSaved (n : nat).          (* Fetched and saved {n} items to all_items.json *)

Inductive app_event : Type :=
| AppPrint (m : printed)
| AppSleep (milliseconds : Z)                        (* time.sleep(0.2) *)
| AppWrite (path : string) (content : list json).    (* json.dump(all_items, f) *)

Record app_state := mkApp {
  client_state : state;
  console : list app_event
}.

Definition App (A : Type) : Type := app_state -> app_state * result A.

Definition aret {A} (a : A) : App A := fun w => (w, Ok a).

Definition abind {A B} (m : App A) (k : A -> App B) : App B :=
  fun w =>
    match m w with
    | (w', Ok a) => k a w'
    | (w', Raise e) => (w', Raise e)
    end.

Definition alift {A} (r : result A) : App A := fun w => (w, r).

(** A call into the client. *)
Definition client_op {A} (m : M A) : App A :=
  fun w =>
    let '(s', r) := m (client_state w) in (mkApp s' (console w), r).

Definition app_emit (e : app_event) : App unit :=
  fun w => (mkApp (client_state w) (console w ++ [e]), Ok tt).

Declare Scope app_scope.
Delimit Scope app_scope with app.
Notation "x <- m ;; k" := (abind m (fun x => k))
  (at level 100, m at next level, right associativity) : app_scope.
Notation "m ;;; k" := (abind m (fun _ => k))
  (at level 100, right associativity) : app_scope.
Local Open Scope app_scope.

(** How the process ends: [sys.exit(code)], or an exception nobody caught. *)
Inductive exit : Type :=
| ExitCode (code : Z)
| Traceback (e : exn).

(** [SearchConfig(item_name = ..., item_type = ...)]: the dataclass
    defaults for the rest. *)
Definition new_SearchConfig (item_name item_type : string) : SearchConfig :=
  mkSearchConfig item_name item_type "online" "asc"
    (JArr [JObj [("type", JStr "and"); ("filters", JArr []); ("disabled", JBool false)]])
    (JObj []) false None.

Definition page_size : nat := 10.

(** The first test of [main]:
    [not search_res or "result" not in search_res or not search_res["result"]]. *)
Definition no_items_guard (search_res : option json) : result bool :=
  match search_res with
  | None => Ok true
  | Some sr =>
      if negb (truthy sr) then Ok true else
      rbind (py_in "result" sr) (fun has_result =>
      if negb has_result then Ok true else
      rbind (py_getitem "result" sr) (fun r => Ok (negb (truthy r))))
  end.

Section Main.
Variable net : list PreparedRequest -> PreparedRequest -> send_outcome.
Variable py_repr : json -> string.
Variable extras_default : loc.

(** What [d[a:b]] raises on a dict: TypeError (unhashable slice) before
    Python 3.12, KeyError from 3.12 on. *)
Variable dict_slice_error : exn.

(** [v[lo:hi]] for [0 <= lo <= hi]. *)
Definition py_slice (lo hi : nat) (v : json) : result json :=
  match v with
  | JArr items => Ok (JArr (take (hi - lo) (drop lo items)))
  | JStr s => Ok (JStr (String.substring lo (hi - lo) s))
  | JObj _ => Raise dict_slice_error
  | JNull | JBool _ | JNum _ => Raise TypeError
  end.

(** The [for page_idx in range(page_count)] loop, carrying [all_items]. *)
Fixpoint fetch_all_pages (conf : ClientConfig) (page_idxs : list nat)
    (all_result_ids query_id : json) (all_items : list json) : App (list json) :=
  match page_idxs with
  | [] => aret all_items
  | page_idx :: later =>
      chunk <- alift (py_slice (page_idx * page_size) ((page_idx + 1) * page_size)
                        all_result_ids) ;;
      if negb (truthy chunk) then aret all_items    (* break *)
      else
        ids <- alift (py_iter chunk) ;;
        built_url <- alift (_build_fetch_url conf ids) ;;
        fetch_res <- client_op (_fetch net extras_default conf built_url query_id) ;;
        has_result <- alift (py_in "result" fetch_res) ;;
        if has_result : bool then
          r <- alift (py_getitem "result" fetch_res) ;;
          more <- alift (py_iter r) ;;              (* all_items.extend(...) *)
          app_emit (AppSleep 200) ;;;
          fetch_all_pages conf later all_result_ids query_id (all_items ++ more)
        else
          app_emit (AppPrint MsgNoResultStopping) ;;;
          aret all_items                            (* break *)
  end.

(** [main] from the construction of the client on.  [page_count] is
    [ceil(total / page_size)], computed in floating point by the source;
    it is the integer ceiling for every length a list can have. *)
Definition main_with_session (poesessid : string) : App unit :=
  dh <- client_op (dict_new default_header_map) ;;
  let conf := mkClientConfig "Standard" poesessid default_url dh logging_WARNING in
  let search_cfg := new_SearchConfig "Obern's Bastion" "Stacked Sabatons" in
  search_res <- client_op (search net py_repr extras_default conf search_cfg) ;;
  no_items <- alift (no_items_guard search_res) ;;
  if no_items : bool then app_emit (AppPrint MsgNoItems)
  else
    match search_res with
    | None => aret tt
    | Some sr =>
        app_emit (AppPrint (MsgValue sr)) ;;;
        has_id <- alift (py_in "id" sr) ;;
        if negb has_id then
          app_emit (AppPrint MsgNoId) ;;;
          all_items <- alift (py_get "result" (JArr []) sr) ;;
          total <- alift (py_len all_items) ;;
          app_emit (AppPrint (MsgFound total))
        else
          query_id <- alift (py_getitem "id" sr) ;;
          all_result_ids <- alift (py_getitem "result" sr) ;;
          total <- alift (py_len all_result_ids) ;;
          app_emit (AppPrint (MsgFetchingAll total)) ;;;
          all_items <- fetch_all_pages conf
                         (seq 0 (Z.to_nat (ceil_div (Z.of_nat total) (Z.of_nat page_size))))
                         all_result_ids query_id [] ;;
          app_emit (AppWrite "all_items.json" all_items) ;;;
          app_emit (AppPrint (MsgSaved (length all_items)))
    end.

(** [sys.exit(main())] with [POESESSID] read from the environment. *)
Definition main (poesessid : string) (w : app_state) : app_state * exit :=
  if String.eqb poesessid EmptyString then
    (mkApp (client_state w) (console w ++ [AppPrint MsgSetSessid]), ExitCode 1)
  else
    match main_with_session poesessid w with
    | (w', Ok _) => (w', ExitCode 0)
    | (w', Raise e) => (w', Traceback e)
    end.

End Main.

(** The events among which a file write can be found. *)
Definition writes (c : list app_event) : list (string * list json) :=
  omap (fun e => match e with AppWrite p v => Some (p, v) | _ => None end) c.

Definition sleeps (c : list app_event) : list Z :=
  omap (fun e => match e with AppSleep ms => Some ms | _ => None end) c.

Definition prints (c : list app_event) : list printed :=
  omap (fun e => match e with AppPrint m => Some m | _ => None end) c.

(** The slice [ids[i*10 : (i+1)*10]] of a list. *)
Definition chunk_at {A} (ids : list A) (i : nat) : list A :=
  take page_size (drop (i * page_size) ids).

(** A computation that writes no file, however it ends. *)
Definition writes_nothing {A} (m : App A) : Prop :=
  forall w, writes (console (m w).1) = writes (console w).

(** A computation that writes at most one file, [all_items.json], and
    only if it then returns normally. *)
Definition writes_on_return_only {A} (m : App A) : Prop :=
  forall w,
    writes (console (m w).1) = writes (console w) \/
    ((exists a, (m w).2 = Ok a) /\
     exists items, writes (console (m w).1)
                   = writes (console w) ++ [("all_items.json", items)]).

End Entry.

(** * Properties *)

(** ** The pager *)

Section PagerFacts.
Context {A : Type}.
Implicit Types (rs page : list A) (pages : list (list A)).

(** What the loop keeps: the pages closed so far are full, the open page
    is not over-full, and nothing is lost or reordered. *)
Lemma pages_loop_spec (P : Z) rs : forall pages page,
  0 < P ->
  Forall (fun b => Z.of_nat (length b) = P) pages ->
  Z.of_nat (length page) <= P ->
  forall pages' page', pages_loop P rs pages page = (pages', page') ->
    Forall (fun b => Z.of_nat (length b) = P) pages' /\
    Z.of_nat (length page') <= P /\
    concat pages' ++ page' = concat pages ++ page ++ rs /\
    (rs <> [] \/ page <> [] -> page' <> []).
Proof.
  induction rs as [|r rs IH]; intros pages page HP Hfull Hlen pages' page' Hrun.
  - simpl in Hrun. inversion Hrun; subst. rewrite app_nil_r.
    repeat split; auto. intros [H|H]; congruence.
  - simpl in Hrun. destruct (Z.of_nat (length page) <? P) eqn:Hlt.
    + apply Z.ltb_lt in Hlt.
      apply IH in Hrun; auto.
      * destruct Hrun as (H1 & H2 & H3 & H4).
        split; [exact H1|]. split; [exact H2|]. split.
        -- rewrite H3, <- app_assoc. reflexivity.
        -- intros _. apply H4. right. destruct page; discriminate.
      * rewrite length_app. simpl. lia.
    + apply Z.ltb_ge in Hlt.
      apply IH in Hrun; auto.
      * destruct Hrun as (H1 & H2 & H3 & H4).
        split; [exact H1|]. split; [exact H2|]. split.
        -- rewrite H3, concat_app. simpl. rewrite app_nil_r, <- app_assoc. reflexivity.
        -- intros _. apply H4. right. discriminate.
      * apply Forall_app. split; auto. constructor; [lia | constructor].
      * simpl. lia.
Qed.

Lemma concat_full_length (P : Z) pages :
  Forall (fun b => Z.of_nat (length b) = P) pages ->
  Z.of_nat (length (concat pages)) = P * Z.of_nat (length pages).
Proof.
  induction 1 as [|b bs Hb _ IH]; simpl; [lia|].
  rewrite length_app. lia.
Qed.

(** On a non-empty list the pager is a partition into [ceil(L/P)]
    consecutive non-empty batches of at most [P] elements. *)
Theorem build_pages_nonempty (ids : list A) (P : Z) :
  0 < P -> ids <> [] ->
  Z.of_nat (length (_build_pages ids P)) = ceil_div (Z.of_nat (length ids)) P /\
  Forall (fun b => b <> [] /\ Z.of_nat (length b) <= P) (_build_pages ids P) /\
  concat (_build_pages ids P) = ids.
Proof.
  intros HP Hne. unfold _build_pages, ceil_div.
  assert (HL : 0 < Z.of_nat (length ids)) by (destruct ids; [congruence | simpl; lia]).
  destruct (Z.of_nat (length ids) <=? P) eqn:Hle.
  - apply Z.leb_le in Hle. repeat split.
    + simpl. apply (Z.div_unique _ _ 1 (Z.of_nat (length ids) - 1)); lia.
    + constructor; [split; [assumption | lia] | constructor].
    + simpl. apply app_nil_r.
  - apply Z.leb_gt in Hle.
    destruct (pages_loop P ids [] []) as [pages page] eqn:Hrun.
    destruct (pages_loop_spec P ids [] [] HP ltac:(constructor) ltac:(simpl; lia) _ _ Hrun)
      as (Hfull & Hlen & Hcat & Hlast).
    simpl in Hcat.
    assert (Hpage : page <> []) by (apply Hlast; left; assumption).
    destruct page as [|x page]; [congruence|].
    pose proof (concat_full_length P pages Hfull) as Hsize.
    assert (Htot : Z.of_nat (length ids)
                   = P * Z.of_nat (length pages) + Z.of_nat (length (x :: page))).
    { rewrite <- Hcat, length_app. lia. }
    repeat split.
    + rewrite length_app. simpl length at 1.
      apply (Z.div_unique _ _ _ (Z.of_nat (length (x :: page)) - 1)).
      * left. simpl in *. lia.
      * rewrite Htot. simpl. lia.
    + apply Forall_app. split.
      * eapply Forall_impl; [exact Hfull|]. intros b Hb. simpl in Hb. split; [|lia].
        destruct b; [simpl in Hb; lia | discriminate].
      * constructor; [split; [discriminate | exact Hlen] | constructor].
    + rewrite concat_app. simpl. rewrite app_nil_r. exact Hcat.
Qed.

(** The first batch is the first [P] elements, whatever the list. *)
Lemma build_pages_head (ids : list A) (P : Z) :
  0 < P -> exists rest, _build_pages ids P = take (Z.to_nat P) ids :: rest.
Proof.
  intros HP. unfold _build_pages.
  destruct (Z.of_nat (length ids) <=? P) eqn:Hle.
  - apply Z.leb_le in Hle. exists []. rewrite take_ge by lia. reflexivity.
  - apply Z.leb_gt in Hle.
    destruct (pages_loop P ids [] []) as [pages page] eqn:Hrun.
    destruct (pages_loop_spec P ids [] [] HP ltac:(constructor) ltac:(simpl; lia) _ _ Hrun)
      as (Hfull & Hlen & Hcat & Hlast).
    simpl in Hcat.
    destruct pages as [|b pages].
    + simpl in Hcat. subst page. lia.
    + apply Forall_cons in Hfull as [Hb _].
      assert (Htake : take (Z.to_nat P) ids = b).
      { rewrite <- Hcat. simpl. rewrite <- app_assoc.
        apply take_app_length'. lia. }
      rewrite Htake. destruct page; eauto.
Qed.

End PagerFacts.

(** ** Running the monad *)

Lemma fresh_loc_unused (h : gmap loc (gmap string string)) :
  h !! fresh (dom h) = None.
Proof. apply not_elem_of_dom. apply is_fresh. Qed.

Lemma bind_ok {A B} (m : M A) (k : A -> M B) s s' a :
  m s = (s', Ok a) -> bind m k s = k a s'.
Proof. intros H. unfold bind. rewrite H. reflexivity. Qed.

Lemma bind_raise {A B} (m : M A) (k : A -> M B) s s' e :
  m s = (s', Raise e) -> bind m k s = (s', Raise e).
Proof. intros H. unfold bind. rewrite H. reflexivity. Qed.

Lemma lift_run {A} (r : result A) s : lift r s = (s, r).
Proof. reflexivity. Qed.

Lemma emit_run e s :
  emit e s = (mkState (heap s) (sess s) (trace s ++ [e]), Ok tt).
Proof. reflexivity. Qed.


Section Runs.
Variable net : list PreparedRequest -> PreparedRequest -> send_outcome.
Variable json_loads : string -> option json.
Variable py_repr : json -> string.
Variable extras_default : loc.
Variable config : ClientConfig.

Abbreviation build_headers := (_build_headers config).
Abbreviation callN := (call net config).
Abbreviation built := (built_headers config).
Abbreviation afterN := (after_call config).

Lemma build_headers_run (x : loc) (s : state) :
  build_headers x s =
    (mkState (<[fresh (dom (heap s)) := built s x]> (heap s)) (sess s) (trace s),
     Ok (fresh (dom (heap s)))).
Proof.
  unfold _build_headers, bind, dict_read, dict_new, dict_setitem, ret, built_headers. simpl.
  rewrite lookup_total_insert_eq, insert_insert_eq. reflexivity.
Qed.

Lemma sent_requests_app (t1 t2 : list event) :
  sent_requests (t1 ++ t2) = sent_requests t1 ++ sent_requests t2.
Proof. apply omap_app. Qed.

(** The exact effect of one round trip. *)
Lemma call_run m u ps d x raise_error (s : state) :
  let req := mkRequest m u ps (fresh (dom (heap s))) d in
  let p := mkPrepared m u ps (built s x) d in
  let out := net (sent_requests (trace s)) p in
  callN m u ps d x raise_error s =
    (afterN s x (round_trip_events raise_error req p out), response_outcome raise_error out).
Proof.
  intros req p out. unfold call, bind at 1. rewrite build_headers_run.
  unfold _request, bind, ensure_session, log, emit, prepare, dict_read, get_trace, ret, raise,
    after_call, round_trip_events, response_outcome. simpl.
  rewrite lookup_total_insert_eq.
  rewrite sent_requests_app. simpl. rewrite app_nil_r.
  fold p. subst out.
  destruct (net (sent_requests (trace s)) p) as [res|]; simpl.
  - destruct raise_error; simpl.
    + destruct (raises_for_status res); simpl; rewrite <- ?app_assoc; reflexivity.
    + rewrite <- ?app_assoc; reflexivity.
  - rewrite <- ?app_assoc. reflexivity.
Qed.

Lemma search_as_call doc s :
  _search net extras_default config doc s =
    bind (callN "POST" (_build_search_url config) [] (Some doc) extras_default true)
         response_json s.
Proof.
  unfold _search, call, bind.
  destruct (build_headers extras_default s) as [s' [h|e]]; reflexivity.
Qed.

Lemma fetch_as_call u q s :
  _fetch net extras_default config u q s =
    bind (callN "GET" u [("query", q)] None extras_default true) response_json s.
Proof.
  unfold _fetch, call, bind.
  destruct (build_headers extras_default s) as [s' [h|e]]; reflexivity.
Qed.

Lemma json_call_run m u ps d x (s : state) :
  let req := mkRequest m u ps (fresh (dom (heap s))) d in
  let p := mkPrepared m u ps (built s x) d in
  let out := net (sent_requests (trace s)) p in
  bind (callN m u ps d x true) response_json s =
    (afterN s x (round_trip_events true req p out), json_outcome out).
Proof.
  intros req p out. unfold bind. rewrite call_run. fold req p out.
  unfold json_outcome.
  destruct (response_outcome true out) as [res|e]; simpl; [|reflexivity].
  unfold response_json, body_of. destruct (json_body res); reflexivity.
Qed.

(** [_search]: one POST; the state and the outcome in closed form. *)
Lemma search_run doc (s : state) :
  let req := mkRequest "POST" (_build_search_url config) [] (fresh (dom (heap s))) (Some doc) in
  let p := mkPrepared "POST" (_build_search_url config) [] (built s extras_default) (Some doc) in
  let out := net (sent_requests (trace s)) p in
  _search net extras_default config doc s =
    (afterN s extras_default (round_trip_events true req p out), json_outcome out).
Proof. intros. rewrite search_as_call. apply json_call_run. Qed.

(** [_fetch]: one GET carrying the query identifier. *)
Lemma fetch_run u q (s : state) :
  let req := mkRequest "GET" u [("query", q)] (fresh (dom (heap s))) None in
  let p := mkPrepared "GET" u [("query", q)] (built s extras_default) None in
  let out := net (sent_requests (trace s)) p in
  _fetch net extras_default config u q s =
    (afterN s extras_default (round_trip_events true req p out), json_outcome out).
Proof. intros. rewrite fetch_as_call. apply json_call_run. Qed.

End Runs.

(** ** Reading traces *)

Lemma callback_args_app (t1 t2 : list event) :
  callback_args (t1 ++ t2) = callback_args t1 ++ callback_args t2.
Proof. apply omap_app. Qed.

Lemma streams_opened_app (t1 t2 : list event) :
  streams_opened (t1 ++ t2) = streams_opened t1 ++ streams_opened t2.
Proof. apply omap_app. Qed.

Lemma logged_app (t1 t2 : list event) :
  logged (t1 ++ t2) = logged t1 ++ logged t2.
Proof. apply omap_app. Qed.

Lemma outbound_headers_app (t1 t2 : list event) :
  outbound_headers (t1 ++ t2) = outbound_headers t1 ++ outbound_headers t2.
Proof. apply omap_app. Qed.

(** A round trip sends exactly one request, calls nothing back and opens
    no stream. *)
Lemma round_trip_sent raise_error req p out :
  sent_requests (round_trip_events raise_error req p out) = [p].
Proof.
  unfold round_trip_events.
  destruct out as [res|]; simpl; [|reflexivity].
  destruct (raise_error && raises_for_status res); reflexivity.
Qed.

Lemma round_trip_callbacks raise_error req p out :
  callback_args (round_trip_events raise_error req p out) = [].
Proof.
  unfold round_trip_events.
  destruct out as [res|]; simpl; [|reflexivity].
  destruct (raise_error && raises_for_status res); reflexivity.
Qed.

Lemma round_trip_streams raise_error req p out :
  streams_opened (round_trip_events raise_error req p out) = [].
Proof.
  unfold round_trip_events.
  destruct out as [res|]; simpl; [|reflexivity].
  destruct (raise_error && raises_for_status res); reflexivity.
Qed.

Lemma round_trip_outbound raise_error req p out :
  outbound_headers (round_trip_events raise_error req p out) = [p_headers p].
Proof.
  unfold round_trip_events.
  destruct out as [res|]; simpl; [|reflexivity].
  destruct (raise_error && raises_for_status res); reflexivity.
Qed.

Create Rewrite HintDb traces.
#[local] Hint Rewrite @sent_requests_app callback_args_app streams_opened_app logged_app
  outbound_headers_app round_trip_sent round_trip_callbacks round_trip_streams
  round_trip_outbound @app_nil_r : traces.

(** ** The first search call fails *)

Section SearchErrors.
Variable net : list PreparedRequest -> PreparedRequest -> send_outcome.
Variable py_repr : json -> string.
Variable extras_default : loc.
Variable config : ClientConfig.

(** C8.  When the service answers the initial search POST of [search]
    (normal or live) with a 4xx/5xx status, [search] raises the HTTPError
    of that status; the POST is the only request sent (nothing is retried,
    nothing is fetched), no stream is opened, no callback is called, and
    the error was logged before it was re-raised. *)
Theorem C8_search_http_error_aborts (cfg : SearchConfig) (s : state) (res : Response) :
  net (sent_requests (trace s))
      (mkPrepared "POST" (_build_search_url config) []
                  (built_headers config s extras_default)
                  (Some (_build_trade_request cfg))) = Sent res ->
  raises_for_status res = true ->
  (search net py_repr extras_default config cfg s).2 = Raise (HTTPError (status_code res)) /\
  sent_requests (trace (search net py_repr extras_default config cfg s).1)
    = sent_requests (trace s) ++
      [mkPrepared "POST" (_build_search_url config) []
                  (built_headers config s extras_default)
                  (Some (_build_trade_request cfg))] /\
  streams_opened (trace (search net py_repr extras_default config cfg s).1)
    = streams_opened (trace s) /\
  callback_args (trace (search net py_repr extras_default config cfg s).1)
    = callback_args (trace s) /\
  logged (trace (search net py_repr extras_default config cfg s).1)
    !! (length (logged (trace s)) + 2)%nat = Some (ERROR, MsgHTTPError res).
Proof.
  intros Hnet Hstatus.
  set (p := mkPrepared "POST" (_build_search_url config) []
              (built_headers config s extras_default) (Some (_build_trade_request cfg))) in *.
  (* the state in which the POST is sent: only enableTrace may have happened *)
  set (s0 := if live cfg && (log_level_of config <=? logging_DEBUG)
             then add_events s [EvEnableTrace] else s).
  assert (Hheap : heap s0 = heap s) by (subst s0; destruct (_ && _); reflexivity).
  assert (Hsent : sent_requests (trace s0) = sent_requests (trace s)).
  { subst s0. destruct (_ && _); simpl; [|reflexivity].
    autorewrite with traces. reflexivity. }
  assert (Hbuilt : built_headers config s0 extras_default
                   = built_headers config s extras_default)
    by (unfold built_headers; rewrite Hheap; reflexivity).
  assert (Hpost : _search net extras_default config (_build_trade_request cfg) s0
            = (after_call config s0 extras_default
                 (round_trip_events true
                    (mkRequest "POST" (_build_search_url config) []
                       (fresh (dom (heap s0))) (Some (_build_trade_request cfg)))
                    p (Sent res)),
               Raise (HTTPError (status_code res)))).
  { rewrite search_run, Hsent, Hbuilt. fold p. rewrite Hnet.
    unfold json_outcome, response_outcome. rewrite Hstatus. reflexivity. }
  assert (Hrun : search net py_repr extras_default config cfg s
            = (after_call config s0 extras_default
                 (round_trip_events true
                    (mkRequest "POST" (_build_search_url config) []
                       (fresh (dom (heap s0))) (Some (_build_trade_request cfg)))
                    p (Sent res)),
               Raise (HTTPError (status_code res)))).
  { unfold search. subst s0. destruct (live cfg); simpl in *.
    - apply bind_raise. unfold _live_search.
      destruct (log_level_of config <=? logging_DEBUG).
      + rewrite (bind_ok _ _ _ _ _ (emit_run EvEnableTrace s)).
        apply bind_raise. exact Hpost.
      + rewrite (bind_ok (ret tt) _ s s tt eq_refl).
        apply bind_raise. exact Hpost.
    - apply bind_raise. unfold _normal_search. apply bind_raise. exact Hpost. }
  rewrite Hrun. simpl. autorewrite with traces.
  assert (Hstreams : streams_opened (trace s0) = streams_opened (trace s)).
  { subst s0. destruct (_ && _); simpl; [|reflexivity].
    autorewrite with traces. reflexivity. }
  assert (Hcalls : callback_args (trace s0) = callback_args (trace s)).
  { subst s0. destruct (_ && _); simpl; [|reflexivity].
    autorewrite with traces. reflexivity. }
  assert (Hlogs : logged (trace s0) = logged (trace s)).
  { subst s0. destruct (_ && _); simpl; [|reflexivity].
    autorewrite with traces. reflexivity. }
  rewrite Hsent, Hstreams, Hcalls, Hlogs.
  repeat split; try reflexivity.
  unfold round_trip_events. rewrite Hstatus. simpl.
  rewrite lookup_app_r by lia. replace (_ - _)%nat with 2%nat by lia. reflexivity.
Qed.

End SearchErrors.

(** ** The normal search *)

Lemma all_str_fmap (ids : list string) : all_str (JStr <$> ids) = Ok ids.
Proof.
  induction ids as [|i ids IH]; [reflexivity|].
  rewrite fmap_cons. cbn [all_str]. rewrite IH. reflexivity.
Qed.

#[local] Arguments _fetch : simpl never.
#[local] Arguments _search : simpl never.
#[local] Arguments _build_pages : simpl never.
#[local] Arguments String.append : simpl never.
#[local] Arguments String.concat : simpl never.

Section NormalSearch.
Variable net : list PreparedRequest -> PreparedRequest -> send_outcome.
Variable extras_default : loc.
Variable config : ClientConfig.
Variable cfg : SearchConfig.
Variable s : state.

(** The search POST as it leaves in state [s], and the state it leaves
    behind when the service answers [sres]. *)
Let p_search : PreparedRequest :=
  mkPrepared "POST" (_build_search_url config) []
    (built_headers config s extras_default) (Some (_build_trade_request cfg)).
Let searched (sres : Response) : state :=
  after_call config s extras_default
    (round_trip_events true
       (mkRequest "POST" (_build_search_url config) [] (fresh (dom (heap s)))
          (Some (_build_trade_request cfg)))
       p_search (Sent sres)).

Lemma build_fetch_url_strs (ids : list string) :
  _build_fetch_url config (JStr <$> ids)
  = Ok (base_url config +:+ "fetch/" +:+ String.concat "," ids).
Proof. unfold _build_fetch_url, py_join. rewrite all_str_fmap. reflexivity. Qed.

Lemma search_ok_run (sres : Response) (body : json) :
  net (sent_requests (trace s)) p_search = Sent sres ->
  raises_for_status sres = false ->
  json_body sres = Some body ->
  _search net extras_default config (_build_trade_request cfg) s = (searched sres, Ok body).
Proof.
  intros Hpost Hstatus Hbody.
  rewrite search_run. fold p_search. rewrite Hpost.
  unfold json_outcome, response_outcome, body_of. rewrite Hstatus. simpl.
  rewrite Hbody. reflexivity.
Qed.

(** With a result list of ids and a query identifier in the search
    response, the normal search is the search round trip followed by one
    [_fetch]: of the first ten ids, for that identifier. *)
Lemma normal_search_is_one_fetch (sres : Response) fields (ids : list string) (qid : json) :
  net (sent_requests (trace s)) p_search = Sent sres ->
  raises_for_status sres = false ->
  json_body sres = Some (JObj fields) ->
  dict_get "result" fields = Some (JArr (JStr <$> ids)) ->
  dict_get "id" fields = Some qid ->
  _normal_search net extras_default config cfg s
  = _fetch net extras_default config
      (base_url config +:+ "fetch/" +:+ String.concat "," (take 10 ids)) qid
      (searched sres).
Proof.
  intros Hpost Hstatus Hbody Hresult Hid.
  unfold _normal_search.
  rewrite (bind_ok _ _ _ _ _ (search_ok_run _ _ Hpost Hstatus Hbody)).
  erewrite bind_ok by (unfold lift, py_in; rewrite Hresult; reflexivity).
  cbn [negb].
  erewrite bind_ok by (unfold lift, py_getitem; rewrite Hresult; reflexivity).
  erewrite bind_ok by reflexivity.
  destruct (build_pages_head (JStr <$> ids) 10 ltac:(lia)) as [rest Hpages].
  rewrite Hpages. change (Z.to_nat 10) with 10%nat. cbv beta iota.
  rewrite <- fmap_take.
  erewrite bind_ok by (unfold lift; rewrite build_fetch_url_strs; reflexivity).
  erewrite bind_ok by (unfold lift, py_getitem; rewrite Hid; reflexivity).
  reflexivity.
Qed.

End NormalSearch.

Section NormalSearchClaims.
Variable net : list PreparedRequest -> PreparedRequest -> send_outcome.
Variable extras_default : loc.
Variable config : ClientConfig.
Variable cfg : SearchConfig.
Variable s : state.

Abbreviation search_post :=
  (mkPrepared "POST" (_build_search_url config) []
     (built_headers config s extras_default) (Some (_build_trade_request cfg))).
Abbreviation after_search sres :=
  (after_call config s extras_default
     (round_trip_events true
        (mkRequest "POST" (_build_search_url config) [] (fresh (dom (heap s)))
           (Some (_build_trade_request cfg)))
        search_post (Sent sres))).
Abbreviation fetch_get s1 ids qid :=
  (mkPrepared "GET" (base_url config +:+ "fetch/" +:+ String.concat "," ids)
     [("query", qid)] (built_headers config s1 extras_default) None).

(** Both requests of a normal search and its outcome, for a search
    response that carries ids and a query identifier. *)
Lemma normal_search_two_requests (sres : Response) fields (ids : list string) (qid : json) :
  net (sent_requests (trace s)) search_post = Sent sres ->
  raises_for_status sres = false ->
  json_body sres = Some (JObj fields) ->
  dict_get "result" fields = Some (JArr (JStr <$> ids)) ->
  dict_get "id" fields = Some qid ->
  sent_requests (trace (_normal_search net extras_default config cfg s).1)
    = sent_requests (trace s)
      ++ [search_post; fetch_get (after_search sres) (take 10 ids) qid] /\
  (_normal_search net extras_default config cfg s).2
    = json_outcome (net (sent_requests (trace s) ++ [search_post])
                        (fetch_get (after_search sres) (take 10 ids) qid)).
Proof.
  intros Hpost Hstatus Hbody Hresult Hid.
  rewrite (normal_search_is_one_fetch _ _ _ _ _ _ _ _ _ Hpost Hstatus Hbody Hresult Hid).
  rewrite fetch_run. simpl. autorewrite with traces.
  rewrite <- app_assoc. split; reflexivity.
Qed.

(** C1 (amended).  For a search response with a query identifier and a
    non-empty list of result ids, the normal search issues exactly one
    fetch call: for the first batch the pager produces, that is the first
    [min(L, 10)] ids, against that query identifier; it returns what this
    one fetch returned, or raises what it raised.  With L = 23 this is one
    fetch call of 10 ids. *)
Theorem C1_normal_search_fetches_first_batch
    (sres : Response) fields (ids : list string) (qid : json) :
  ids <> [] ->
  net (sent_requests (trace s)) search_post = Sent sres ->
  raises_for_status sres = false ->
  json_body sres = Some (JObj fields) ->
  dict_get "result" fields = Some (JArr (JStr <$> ids)) ->
  dict_get "id" fields = Some qid ->
  hd_error (_build_pages ids 10) = Some (take 10 ids) /\
  take 10 ids <> [] /\
  length (take 10 ids) = Nat.min 10 (length ids) /\
  sent_requests (trace (_normal_search net extras_default config cfg s).1)
    = sent_requests (trace s)
      ++ [search_post; fetch_get (after_search sres) (take 10 ids) qid] /\
  (_normal_search net extras_default config cfg s).2
    = json_outcome (net (sent_requests (trace s) ++ [search_post])
                        (fetch_get (after_search sres) (take 10 ids) qid)).
Proof.
  intros Hne Hpost Hstatus Hbody Hresult Hid.
  split; [|split; [|split]].
  - destruct (build_pages_head ids 10 ltac:(lia)) as [rest Hpages].
    rewrite Hpages. reflexivity.
  - destruct ids; [congruence | discriminate].
  - apply length_take.
  - eapply normal_search_two_requests; eassumption.
Qed.

(** C2, the part the code breaks.  For a search response whose result
    list is empty, the pager returns one empty batch, so the guard on an
    empty page list does not fire: a fetch call is issued, and its URL is
    the fetch prefix followed by an empty id segment. *)
Theorem C2_empty_result_still_fetches (sres : Response) fields (qid : json) :
  net (sent_requests (trace s)) search_post = Sent sres ->
  raises_for_status sres = false ->
  json_body sres = Some (JObj fields) ->
  dict_get "result" fields = Some (JArr []) ->
  dict_get "id" fields = Some qid ->
  _build_pages (@nil json) 10 = [[]] /\
  _build_fetch_url config [] = Ok (base_url config +:+ "fetch/" +:+ EmptyString) /\
  sent_requests (trace (_normal_search net extras_default config cfg s).1)
    = sent_requests (trace s)
      ++ [search_post; fetch_get (after_search sres) [] qid].
Proof.
  intros Hpost Hstatus Hbody Hresult Hid.
  split; [reflexivity|]. split; [reflexivity|].
  apply (normal_search_two_requests sres fields [] qid Hpost Hstatus Hbody Hresult Hid).
Qed.

(** The part of C2 that holds: a search response without a result field
    ends the normal search with the empty result, as a value and not as an
    exception, after the search POST alone. *)
Theorem normal_search_malformed_is_empty (sres : Response) fields :
  net (sent_requests (trace s)) search_post = Sent sres ->
  raises_for_status sres = false ->
  json_body sres = Some (JObj fields) ->
  dict_get "result" fields = None ->
  (_normal_search net extras_default config cfg s).2 = Ok empty_result /\
  sent_requests (trace (_normal_search net extras_default config cfg s).1)
    = sent_requests (trace s) ++ [search_post].
Proof.
  intros Hpost Hstatus Hbody Hresult.
  unfold _normal_search.
  rewrite (bind_ok _ _ _ _ _ (search_ok_run _ _ _ _ _ _ _ Hpost Hstatus Hbody)).
  erewrite bind_ok by (unfold lift, py_in; rewrite Hresult; reflexivity).
  cbn [negb]. cbv beta iota.
  unfold bind, log, emit, ret. simpl. autorewrite with traces. simpl.
  autorewrite with traces. split; reflexivity.
Qed.

End NormalSearchClaims.

(** *** The end-to-end scenario, run *)

(** C1 as stated fails on the scenario of the specification: with 23 ids
    and page size 10 the normal search issues one fetch call, not three,
    and returns the ten items of that call, not 23. *)
Lemma C1_counterexample :
  let run := _normal_search Scenario.net23 Scenario.extras0 Scenario.config0
               Scenario.tabula Scenario.state0 in
  length (fetch_calls (trace run.1)) = 1%nat /\
  run.2 = Ok (JObj [("result", Scenario.ten_items)]) /\
  ~ (length (fetch_calls (trace run.1)) = 3%nat /\
     exists items, run.2 = Ok (JObj [("result", JArr items)]) /\ length items = 23%nat).
Proof.
  vm_compute. split; [reflexivity|]. split; [reflexivity|].
  intros [H _]. discriminate H.
Qed.

Lemma C1_witness :
  request_line <$> sent_requests
    (trace (_normal_search Scenario.net23 Scenario.extras0 Scenario.config0
              Scenario.tabula Scenario.state0).1)
  = [("POST", "https://www.pathofexile.com/api/trade2/search/Standard", [],
      Some (_build_trade_request Scenario.tabula));
     ("GET",
      "https://www.pathofexile.com/api/trade2/fetch/id01,id02,id03,id04,id05,id06,id07,id08,id09,id10",
      [("query", JStr "q1")], None)].
Proof.
  destruct (C1_normal_search_fetches_first_batch Scenario.net23 Scenario.extras0
              Scenario.config0 Scenario.tabula Scenario.state0
              (mkResponse 200 (Some (Scenario.search_body Scenario.ids23)))
              (Scenario.search_fields Scenario.ids23) Scenario.ids23 (JStr "q1"))
    as (_ & _ & _ & Hsent & _);
    [discriminate | reflexivity | reflexivity | reflexivity | reflexivity | reflexivity |].
  rewrite Hsent. vm_compute. reflexivity.
Defined.

Lemma C2_witness :
  request_line <$> sent_requests
    (trace (_normal_search Scenario.net_no_match Scenario.extras0 Scenario.config0
              Scenario.tabula Scenario.state0).1)
  = [("POST", "https://www.pathofexile.com/api/trade2/search/Standard", [],
      Some (_build_trade_request Scenario.tabula));
     ("GET", "https://www.pathofexile.com/api/trade2/fetch/",
      [("query", JStr "q1")], None)].
Proof.
  destruct (C2_empty_result_still_fetches Scenario.net_no_match Scenario.extras0
              Scenario.config0 Scenario.tabula Scenario.state0
              (mkResponse 200 (Some (Scenario.search_body [])))
              (Scenario.search_fields []) (JStr "q1"))
    as (_ & _ & Hsent);
    [reflexivity | reflexivity | reflexivity | reflexivity | reflexivity |].
  rewrite Hsent. vm_compute. reflexivity.
Defined.

Lemma normal_search_malformed_witness :
  (_normal_search Scenario.net_malformed Scenario.extras0 Scenario.config0
     Scenario.tabula Scenario.state0).2 = Ok (JObj [("result", JArr [])]).
Proof.
  destruct (normal_search_malformed_is_empty Scenario.net_malformed Scenario.extras0
              Scenario.config0 Scenario.tabula Scenario.state0
              (mkResponse 200 (Some (JObj [("error", JStr "bad query")])))
              [("error", JStr "bad query")])
    as (Hres & _);
    [reflexivity | reflexivity | reflexivity | reflexivity |].
  exact Hres.
Defined.

(** C3, at the input where the code breaks it.  On the empty list, and
    for every page size that is not negative, the pager returns one batch,
    which is empty; [ceil(0/P)] is zero batches. *)
Theorem C3_build_pages_empty_list (A : Type) (P : Z) :
  _build_pages (@nil A) P = (if 0 <=? P then [[]] else []) /\
  (@_build_pages A [] 10 = [[]] /\ ceil_div (Z.of_nat (@length A [])) 10 = 0).
Proof.
  split; [|split; reflexivity].
  unfold _build_pages. cbn [length pages_loop]. change (Z.of_nat 0) with 0.
  destruct (0 <=? P); reflexivity.
Qed.

Lemma build_pages_nonempty_witness :
  _build_pages Scenario.ids23 10
  = [take 10 Scenario.ids23; take 10 (drop 10 Scenario.ids23); drop 20 Scenario.ids23]
  /\ Z.of_nat (length (_build_pages Scenario.ids23 10)) = 3.
Proof.
  split; [reflexivity|].
  destruct (build_pages_nonempty Scenario.ids23 10) as (Hcount & _ & _);
    [lia | discriminate |].
  rewrite Hcount. reflexivity.
Defined.

Lemma C8_witness :
  (search Scenario.net_search_403 Scenario.repr0 Scenario.extras0 Scenario.config0
     Scenario.tabula Scenario.state0).2 = Raise (HTTPError 403) /\
  (search Scenario.net_search_403 Scenario.repr0 Scenario.extras0 Scenario.config0
     (Scenario.tabula_live (Some Scenario.accept_item)) Scenario.state0).2
  = Raise (HTTPError 403).
Proof.
  split.
  - apply (C8_search_http_error_aborts Scenario.net_search_403 Scenario.repr0
             Scenario.extras0 Scenario.config0 Scenario.tabula Scenario.state0
             (mkResponse 403 None)); reflexivity.
  - apply (C8_search_http_error_aborts Scenario.net_search_403 Scenario.repr0
             Scenario.extras0 Scenario.config0
             (Scenario.tabula_live (Some Scenario.accept_item)) Scenario.state0
             (mkResponse 403 None)); reflexivity.
Defined.

(** ** The live-stream message handler *)

Lemma built_headers_add_events config s evs x :
  built_headers config (add_events s evs) x = built_headers config s x.
Proof. reflexivity. Qed.

Section LiveHandler.
Variable net : list PreparedRequest -> PreparedRequest -> send_outcome.
Variable json_loads : string -> option json.
Variable extras_default : loc.
Variable config : ClientConfig.

Abbreviation handler := (_build_ws_message_handler net json_loads extras_default config).

(** A frame that does not decode: a warning, nothing else. *)
Lemma handler_undecodable q cb msg s :
  json_loads msg = None ->
  handler q cb msg s
  = (add_events s [EvLog DEBUG (MsgReceivedMsg msg); EvLog WARNING MsgInvalidJSONMessage],
     Ok tt).
Proof.
  intros Hdec. unfold _build_ws_message_handler. rewrite Hdec.
  unfold bind, log, emit, add_events. simpl. rewrite <- app_assoc. reflexivity.
Qed.

(** A decoded object without a "new" field: nothing beyond the debug record. *)
Lemma handler_irrelevant q cb msg fields s :
  json_loads msg = Some (JObj fields) ->
  dict_get "new" fields = None ->
  handler q cb msg s = (add_events s [EvLog DEBUG (MsgReceivedMsg msg)], Ok tt).
Proof.
  intros Hdec Hnew. unfold _build_ws_message_handler. rewrite Hdec.
  unfold bind, log, emit, add_events, lift, py_in. simpl. rewrite Hnew. reflexivity.
Qed.

(** A notification: one [_fetch] for exactly the new ids with the handler's
    search id, then the callback on its result. *)
Lemma handler_notification q cb msg fields (ids : list string) s :
  json_loads msg = Some (JObj fields) ->
  dict_get "new" fields = Some (JArr (JStr <$> ids)) ->
  handler q cb msg s
  = bind (_fetch net extras_default config
            (base_url config +:+ "fetch/" +:+ String.concat "," ids) q)
         (fun fetch_res =>
            match cb with
            | Some f => emit (EvCallback fetch_res) ;;; lift (f fetch_res)
            | None => ret tt
            end)%py
         (add_events s [EvLog DEBUG (MsgReceivedMsg msg)]).
Proof.
  intros Hdec Hnew. unfold _build_ws_message_handler. rewrite Hdec.
  erewrite bind_ok by reflexivity.
  erewrite bind_ok by (unfold lift, py_in; rewrite Hnew; reflexivity).
  cbv beta iota.
  erewrite bind_ok by (unfold lift, py_getitem; rewrite Hnew; reflexivity).
  erewrite bind_ok by reflexivity.
  erewrite bind_ok by (unfold lift; rewrite build_fetch_url_strs; reflexivity).
  reflexivity.
Qed.

(** The handler's run on a notification, in closed form. *)
Lemma notification_run search_id cb msg fields (ids : list string) s :
  json_loads msg = Some (JObj fields) ->
  dict_get "new" fields = Some (JArr (JStr <$> ids)) ->
  let out := net (sent_requests (trace s)) (notified_get_in extras_default config search_id s ids) in
  let s1 := after_call config (add_events s [EvLog DEBUG (MsgReceivedMsg msg)]) extras_default
              (round_trip_events true
                 (mkRequest "GET" (base_url config +:+ "fetch/" +:+ String.concat "," ids)
                    [("query", search_id)] (fresh (dom (heap s))) None)
                 (notified_get_in extras_default config search_id s ids) out) in
  handler search_id cb msg s
  = match json_outcome out, cb with
    | Ok v, Some f => (add_events s1 [EvCallback v], f v)
    | Ok v, None => (s1, Ok tt)
    | Raise e, _ => (s1, Raise e)
    end.
Proof.
  intros Hdec Hnew out s1.
  rewrite (handler_notification _ _ _ _ _ _ Hdec Hnew).
  unfold bind at 1. rewrite fetch_run.
  rewrite built_headers_add_events.
  replace (sent_requests (trace (add_events s [EvLog DEBUG (MsgReceivedMsg msg)])))
    with (sent_requests (trace s))
    by (simpl; autorewrite with traces; reflexivity).
  change (heap (add_events s [EvLog DEBUG (MsgReceivedMsg msg)])) with (heap s).
  fold (notified_get_in extras_default config search_id s ids). fold out. fold s1.
  destruct (json_outcome out) as [v|e]; [|reflexivity].
  destruct cb as [f|]; reflexivity.
Qed.

End LiveHandler.

Section LiveClaims.
Variable net : list PreparedRequest -> PreparedRequest -> send_outcome.
Variable json_loads : string -> option json.
Variable extras_default : loc.
Variable config : ClientConfig.
Variable search_id : json.
Variable s : state.

Abbreviation on_message := (_build_ws_message_handler net json_loads extras_default config).
Abbreviation notified_get := (notified_get_in extras_default config search_id s).

(** C4.  Fed the frames [not json], [{"new":["a","b"]}] and [{"other":1}]
    in this order, the handler built for [search_id] with a callback issues
    exactly one fetch call, for the ids a and b against [search_id], and
    calls the callback exactly once, with the decoded body of that fetch;
    the other two frames send nothing and call nothing, and no frame
    raises.  The fetch is taken to succeed and the callback to return. *)
Theorem C4_live_dispatch_three_frames
    (cb : json -> result unit) (fres : Response) (fetch_res : json) :
  json_loads frame_not_json = None ->
  json_loads frame_new_a_b = Some (JObj [("new", JArr [JStr "a"; JStr "b"])]) ->
  json_loads frame_other_1 = Some (JObj [("other", JNum 1)]) ->
  net (sent_requests (trace s)) (notified_get ["a"; "b"]) = Sent fres ->
  raises_for_status fres = false ->
  json_body fres = Some fetch_res ->
  cb fetch_res = Ok tt ->
  (feed (on_message search_id (Some cb))
        [frame_not_json; frame_new_a_b; frame_other_1] s).2 = Ok tt /\
  sent_requests (trace (feed (on_message search_id (Some cb))
                          [frame_not_json; frame_new_a_b; frame_other_1] s).1)
    = sent_requests (trace s) ++ [notified_get ["a"; "b"]] /\
  p_url (notified_get ["a"; "b"]) = base_url config +:+ "fetch/a,b" /\
  p_params (notified_get ["a"; "b"]) = [("query", search_id)] /\
  callback_args (trace (feed (on_message search_id (Some cb))
                          [frame_not_json; frame_new_a_b; frame_other_1] s).1)
    = callback_args (trace s) ++ [fetch_res].
Proof.
  intros Hf1 Hf2 Hf3 Hnet Hstatus Hbody Hcb.
  set (s1 := add_events s [EvLog DEBUG (MsgReceivedMsg frame_not_json);
                           EvLog WARNING MsgInvalidJSONMessage]).
  assert (Hsent1 : sent_requests (trace s1) = sent_requests (trace s))
    by (subst s1; simpl; autorewrite with traces; reflexivity).
  assert (Hout : json_outcome (net (sent_requests (trace s1))
                   (notified_get_in extras_default config search_id s1 ["a"; "b"]))
                 = Ok fetch_res).
  { rewrite Hsent1. change (notified_get_in extras_default config search_id s1 ["a"; "b"])
      with (notified_get ["a"; "b"]). rewrite Hnet.
    unfold json_outcome, response_outcome, body_of. rewrite Hstatus. simpl.
    rewrite Hbody. reflexivity. }
  pose proof (notification_run net json_loads extras_default config search_id (Some cb)
                frame_new_a_b _ ["a"; "b"] s1 Hf2 eq_refl) as Hrun2.
  cbv zeta in Hrun2. rewrite Hout, Hcb in Hrun2.
  cbn [feed].
  rewrite (bind_ok _ _ _ _ _ (handler_undecodable net json_loads extras_default config
                                search_id (Some cb) _ s Hf1)).
  fold s1. rewrite (bind_ok _ _ _ _ _ Hrun2).
  erewrite bind_ok by (apply (handler_irrelevant net json_loads extras_default config
                                search_id (Some cb) _ _ _ Hf3); reflexivity).
  unfold ret. cbn [fst snd]. repeat split.
  - subst s1. cbn [trace add_events after_call].
    autorewrite with traces. simpl. autorewrite with traces. simpl.
    autorewrite with traces. reflexivity.
  - subst s1. cbn [trace add_events after_call].
    autorewrite with traces. simpl. autorewrite with traces. simpl.
    autorewrite with traces. reflexivity.
Qed.

End LiveClaims.

Lemma C4_witness :
  callback_args
    (trace (feed (_build_ws_message_handler
                    (Scenario.mock SendFailed
                       (Scenario.ok_response
                          (JObj [("result", JArr [Scenario.hydrated "a"; Scenario.hydrated "b"])])))
                    MiniJson.loads Scenario.extras0 Scenario.config0
                    (JStr "q1") (Some Scenario.accept_item))
                 [frame_not_json; frame_new_a_b; frame_other_1] Scenario.state0).1)
  = [JObj [("result", JArr [Scenario.hydrated "a"; Scenario.hydrated "b"])]].
Proof.
  destruct (C4_live_dispatch_three_frames
              (Scenario.mock SendFailed
                 (Scenario.ok_response
                    (JObj [("result", JArr [Scenario.hydrated "a"; Scenario.hydrated "b"])])))
              MiniJson.loads Scenario.extras0 Scenario.config0 (JStr "q1") Scenario.state0
              Scenario.accept_item
              (mkResponse 200
                 (Some (JObj [("result", JArr [Scenario.hydrated "a"; Scenario.hydrated "b"])])))
              (JObj [("result", JArr [Scenario.hydrated "a"; Scenario.hydrated "b"])]))
    as (_ & _ & _ & _ & Hcalls);
    [vm_compute; reflexivity | vm_compute; reflexivity | vm_compute; reflexivity
    | reflexivity | reflexivity | reflexivity | reflexivity |].
  exact Hcalls.
Defined.

Section LiveFailures.
Variable net : list PreparedRequest -> PreparedRequest -> send_outcome.
Variable json_loads : string -> option json.
Variable extras_default : loc.
Variable config : ClientConfig.
Variable search_id : json.
Variable s : state.

(** C5 (amended).  When the fetch that a notification triggers fails --
    an HTTP error status, no response at all, or a body that is not JSON --
    the exception leaves the message handler: the handler raises it to
    whoever delivered the frame, after exactly one request, and the
    callback is not called.  An HTTP error status is logged at ERROR level
    before it is re-raised. *)
Theorem C5_fetch_failure_leaves_handler
    (cb : option (json -> result unit)) msg fields (ids : list string) (e : exn) :
  json_loads msg = Some (JObj fields) ->
  dict_get "new" fields = Some (JArr (JStr <$> ids)) ->
  json_outcome (net (sent_requests (trace s))
                    (notified_get_in extras_default config search_id s ids)) = Raise e ->
  (_build_ws_message_handler net json_loads extras_default config search_id cb msg s).2
    = Raise e /\
  callback_args
    (trace (_build_ws_message_handler net json_loads extras_default config
              search_id cb msg s).1) = callback_args (trace s) /\
  sent_requests
    (trace (_build_ws_message_handler net json_loads extras_default config
              search_id cb msg s).1)
    = sent_requests (trace s) ++ [notified_get_in extras_default config search_id s ids] /\
  (forall res,
     net (sent_requests (trace s))
         (notified_get_in extras_default config search_id s ids) = Sent res ->
     raises_for_status res = true ->
     e = HTTPError (status_code res) /\
     last (logged (trace (_build_ws_message_handler net json_loads extras_default config
                            search_id cb msg s).1))
       = Some (ERROR, MsgHTTPError res)).
Proof.
  intros Hdec Hnew Hout.
  rewrite (notification_run net json_loads extras_default config search_id cb
             msg fields ids s Hdec Hnew).
  cbv zeta. rewrite Hout. cbn [fst snd].
  split; [reflexivity|]. split; [|split].
  - cbn [trace add_events after_call]. autorewrite with traces. simpl.
    autorewrite with traces. reflexivity.
  - cbn [trace add_events after_call]. autorewrite with traces. simpl.
    autorewrite with traces. reflexivity.
  - intros res Hnet Hstatus. rewrite Hnet in Hout |- *.
    unfold json_outcome, response_outcome in Hout. rewrite Hstatus in Hout.
    simpl in Hout. split; [congruence|].
    cbn [trace add_events after_call]. unfold round_trip_events. rewrite Hstatus.
    simpl. autorewrite with traces. simpl.
    match goal with
    | |- last (?l ++ [?a; ?b; ?c]) = _ =>
        change (l ++ [a; b; c]) with (l ++ ([a; b] ++ [c]));
        rewrite app_assoc; apply last_snoc
    end.
Qed.

End LiveFailures.

(** C5 as stated fails: with the fetch endpoint answering 500, the
    notification [{"new":["a","b"]}] makes the handler raise the HTTPError;
    it does not return. *)
Lemma C5_counterexample :
  let run := _build_ws_message_handler Scenario.net_fetch_500 MiniJson.loads
               Scenario.extras0 Scenario.config0 (JStr "q1")
               (Some Scenario.accept_item) frame_new_a_b Scenario.state0 in
  run.2 = Raise (HTTPError 500) /\ run.2 <> Ok tt /\ callback_args (trace run.1) = [].
Proof.
  vm_compute. split; [reflexivity|]. split; [discriminate | reflexivity].
Qed.

Lemma C5_witness :
  (_build_ws_message_handler Scenario.net_fetch_500 MiniJson.loads
     Scenario.extras0 Scenario.config0 (JStr "q1")
     (Some Scenario.accept_item) frame_new_a_b Scenario.state0).2
  = Raise (HTTPError 500).
Proof.
  destruct (C5_fetch_failure_leaves_handler Scenario.net_fetch_500 MiniJson.loads
              Scenario.extras0 Scenario.config0 (JStr "q1") Scenario.state0
              (Some Scenario.accept_item) frame_new_a_b
              [("new", JArr [JStr "a"; JStr "b"])] ["a"; "b"] (HTTPError 500))
    as (Hres & _);
    [vm_compute; reflexivity | reflexivity | reflexivity |].
  exact Hres.
Defined.

(** ** Whisper *)

Lemma bind_assoc {A B C} (m : M A) (f : A -> M B) (g : B -> M C) s :
  bind (bind m f) g s = bind m (fun a => bind (f a) g) s.
Proof. unfold bind. destruct (m s) as [s' [a|e]]; reflexivity. Qed.

Section Whisper.
Variable net : list PreparedRequest -> PreparedRequest -> send_outcome.
Variable extras_default : loc.
Variable config : ClientConfig.
Variable s : state.

(** [_whisper] in closed form: whatever the status and the body, a
    response is turned into a value. *)
Lemma whisper_call_run (token : json) (res : Response) :
  net (sent_requests (trace s)) (whisper_post config s token) = Sent res ->
  let s1 := after_call config (with_whisper_extras s) (fresh (dom (heap s)))
              (round_trip_events false
                 (mkRequest "POST" (_build_whisper_url config) []
                    (fresh (dom (heap (with_whisper_extras s))))
                    (Some (JObj [("token", token)])))
                 (whisper_post config s token) (Sent res)) in
  _whisper net config token s
  = (match json_body res with
     | Some _ => s1
     | None => add_events s1 [EvLog WARNING MsgWhisperNotJSON]
     end, Ok (whisper_value res)).
Proof.
  intros Hnet s1.
  assert (Hrun : _whisper net config token s
    = bind (call net config "POST" (_build_whisper_url config) []
              (Some (JObj [("token", token)])) (fresh (dom (heap s))) false)
           (fun res => try_except (response_json res) is_JSONDecodeError
                         (log WARNING MsgWhisperNotJSON ;;; ret invalid_json_response))%py
           (with_whisper_extras s)).
  { unfold _whisper. erewrite bind_ok by reflexivity.
    fold (with_whisper_extras s). unfold call. rewrite bind_assoc. reflexivity. }
  rewrite Hrun. unfold bind at 1.
  rewrite call_run.
  change (trace (with_whisper_extras s)) with (trace s).
  fold (whisper_post config s token). rewrite Hnet. fold s1.
  cbn [response_outcome andb].
  unfold try_except, response_json, whisper_value.
  destruct (json_body res) as [v|]; reflexivity.
Qed.

(** [whisper] is [_whisper] followed by the attempt to log the error. *)
Lemma whisper_run (listing : list (string * json)) (token : json) (res : Response) :
  dict_get "whisper_token" listing = Some token ->
  net (sent_requests (trace s)) (whisper_post config s token) = Sent res ->
  (whisper net config (JObj listing) s).2
  = rbind (py_in "error" (whisper_value res)) (fun has_error =>
      if has_error : bool then
        rbind (py_getitem "error" (whisper_value res)) (fun e =>
        rbind (py_getitem "message" e) (fun _ => Ok (whisper_value res)))
      else Ok (whisper_value res)).
Proof.
  intros Htoken Hnet. unfold whisper.
  erewrite bind_ok by (unfold lift, py_getitem; rewrite Htoken; reflexivity).
  rewrite (bind_ok _ _ _ _ _ (whisper_call_run token res Hnet)).
  unfold bind, lift, log, emit, ret.
  destruct (py_in "error" (whisper_value res)) as [[|]|e]; cbn; try reflexivity.
  destruct (py_getitem "error" (whisper_value res)) as [v|e]; cbn; try reflexivity.
  destruct (py_getitem "message" v) as [m|e]; reflexivity.
Qed.

(** C7 (amended).  For every HTTP response to the whisper POST, whatever
    its status: [_whisper] does not raise and returns the decoded body, or
    the structured error outcome when the body is not valid JSON; the
    public [whisper] returns the same value without raising when the body
    is not valid JSON, and when it decodes to an object that has no error
    field or whose error field is an object with a message. *)
Theorem C7_whisper_tolerates_status_and_non_json
    (listing : list (string * json)) (token : json) (res : Response) :
  dict_get "whisper_token" listing = Some token ->
  net (sent_requests (trace s)) (whisper_post config s token) = Sent res ->
  (_whisper net config token s).2 = Ok (whisper_value res) /\
  (json_body res = None ->
     whisper_value res = invalid_json_response /\
     (whisper net config (JObj listing) s).2 = Ok invalid_json_response) /\
  (forall fields,
     json_body res = Some (JObj fields) ->
     dict_get "error" fields = None ->
     (whisper net config (JObj listing) s).2 = Ok (JObj fields)) /\
  (forall fields efields m,
     json_body res = Some (JObj fields) ->
     dict_get "error" fields = Some (JObj efields) ->
     dict_get "message" efields = Some m ->
     (whisper net config (JObj listing) s).2 = Ok (JObj fields)).
Proof.
  intros Htoken Hnet.
  split; [rewrite (whisper_call_run token res Hnet); reflexivity|].
  rewrite (whisper_run listing token res Htoken Hnet).
  unfold whisper_value. split; [|split].
  - intros Hnone. rewrite Hnone. split; reflexivity.
  - intros fields Hbody Herr. rewrite Hbody. cbn. rewrite Herr. reflexivity.
  - intros fields efields m Hbody Herr Hmsg. rewrite Hbody. cbn. rewrite Herr. cbn.
    rewrite Hmsg. reflexivity.
Qed.

End Whisper.

(** C7 as stated fails: a 400 whose JSON body carries the error as a bare
    string makes [whisper] raise TypeError while it formats the warning. *)
Lemma C7_counterexample :
  (whisper Scenario.net_whisper_400 Scenario.config0 Scenario.listing0 Scenario.state0).2
  = Raise TypeError.
Proof. vm_compute. reflexivity. Qed.

Lemma C7_witness :
  (whisper Scenario.net_whisper_html Scenario.config0 Scenario.listing0 Scenario.state0).2
  = Ok (JObj [("error", JObj [("message", JStr "Invalid JSON response")])]).
Proof.
  destruct (C7_whisper_tolerates_status_and_non_json Scenario.net_whisper_html
              Scenario.config0 Scenario.state0
              [("method", JStr "psapi"); ("whisper", JStr "@seller hi");
               ("whisper_token", JStr "tok")]
              (JStr "tok") (mkResponse 429 None))
    as (_ & Hhtml & _); [reflexivity | reflexivity |].
  apply Hhtml. reflexivity.
Defined.

(** ** The entry point's three-way reading of a response *)

(** C6 (amended).  On every decoded JSON object, [main] decides as
    follows: a body without a result field, or whose result list is empty,
    is reported as "no items found"; a body with a non-empty result list and
    a top-level id is read as a search response carrying that id and the
    result list; a body with a non-empty result list and no id is read as a
    fetch response carrying the result items. *)
Theorem C6_main_classifies_by_result_and_id (fields : list (string * json)) :
  (dict_get "result" fields = None ->
     main_classify (Some (JObj fields)) = Ok NoItemsFound) /\
  (dict_get "result" fields = Some (JArr []) ->
     main_classify (Some (JObj fields)) = Ok NoItemsFound) /\
  (forall item items id,
     dict_get "result" fields = Some (JArr (item :: items)) ->
     dict_get "id" fields = Some id ->
     main_classify (Some (JObj fields))
     = Ok (SearchShaped id (JArr (item :: items)) (S (length items)))) /\
  (forall item items,
     dict_get "result" fields = Some (JArr (item :: items)) ->
     dict_get "id" fields = None ->
     main_classify (Some (JObj fields))
     = Ok (FetchShaped (JArr (item :: items)) (S (length items)))).
Proof.
  unfold main_classify.
  split; [|split; [|split]].
  - intros Hres. destruct fields as [|f fields']; [reflexivity|].
    cbn [truthy negb py_in rbind]. rewrite Hres. reflexivity.
  - intros Hres. destruct fields as [|f fields']; [discriminate|].
    cbn [truthy negb py_in py_getitem rbind]. rewrite Hres. reflexivity.
  - intros item items id Hres Hid. destruct fields as [|f fields']; [discriminate|].
    cbn [truthy negb py_in py_getitem rbind]. rewrite Hres.
    cbn [truthy negb rbind]. rewrite Hid. reflexivity.
  - intros item items Hres Hid. destruct fields as [|f fields']; [discriminate|].
    cbn [truthy negb py_in py_getitem py_get rbind]. rewrite Hres.
    cbn [truthy negb rbind]. rewrite Hid. reflexivity.
Qed.

(** C6 as stated fails: a body with a result field and an id whose result
    list is empty is not read as a search response. *)
Lemma C6_counterexample :
  main_classify (Some (JObj [("result", JArr []); ("id", JStr "q1")])) = Ok NoItemsFound /\
  main_classify (Some (JObj [("result", JArr []); ("id", JStr "q1")]))
    <> Ok (SearchShaped (JStr "q1") (JArr []) 0).
Proof. split; [reflexivity | discriminate]. Qed.

(** The three bodies of the specification's example. *)
Lemma C6_witness :
  main_classify (Some (JObj [("result", JArr [JStr "r1"; JStr "r2"]); ("id", JStr "q1")]))
    = Ok (SearchShaped (JStr "q1") (JArr [JStr "r1"; JStr "r2"]) 2) /\
  main_classify (Some (JObj [("result", JArr [Scenario.hydrated "r1"])]))
    = Ok (FetchShaped (JArr [Scenario.hydrated "r1"]) 1) /\
  main_classify (Some (JObj [])) = Ok NoItemsFound.
Proof.
  split; [|split].
  - apply (proj1 (proj2 (proj2 (C6_main_classifies_by_result_and_id
             [("result", JArr [JStr "r1"; JStr "r2"]); ("id", JStr "q1")]))));
      reflexivity.
  - apply (proj2 (proj2 (proj2 (C6_main_classifies_by_result_and_id
             [("result", JArr [Scenario.hydrated "r1"])])))); reflexivity.
  - apply (proj1 (C6_main_classifies_by_result_and_id [])); reflexivity.
Defined.

(** ** What every operation leaves alone, and what it always sends *)

Section Frame.
Variable net : list PreparedRequest -> PreparedRequest -> send_outcome.
Variable json_loads : string -> option json.
Variable py_repr : json -> string.
Variable extras_default : loc.
Variable config : ClientConfig.

Abbreviation ok := (step_ok extras_default config).
Abbreviation required := (carries_required config).
Abbreviation in_place := (defaults_in_place extras_default config).

Lemma ok_refl s : ok s s.
Proof.
  split; [reflexivity|]. exists []. rewrite app_nil_r. split; [reflexivity|].
  intros _. constructor.
Qed.

Lemma in_place_weaken s s' : heap s ⊆ heap s' -> in_place s -> in_place s'.
Proof.
  intros Hsub [Hd He]. split; eapply lookup_weaken; eassumption.
Qed.

Lemma ok_trans s1 s2 s3 : ok s1 s2 -> ok s2 s3 -> ok s1 s3.
Proof.
  intros (Hh1 & evs1 & Ht1 & Hr1) (Hh2 & evs2 & Ht2 & Hr2).
  split; [etransitivity; eassumption|].
  exists (evs1 ++ evs2). split.
  - rewrite Ht2, Ht1, app_assoc. reflexivity.
  - intros Hin. rewrite outbound_headers_app. apply Forall_app. split.
    + apply Hr1, Hin.
    + apply Hr2. eapply in_place_weaken; eassumption.
Qed.

(** Sequencing: a step that is fine here, followed by a continuation that
    is fine everywhere. *)
Lemma ok_bind {A B} (m : M A) (k : A -> M B) s :
  ok s (m s).1 -> (forall a s', ok s' (k a s').1) -> ok s (bind m k s).1.
Proof.
  intros Hm Hk. unfold bind. destruct (m s) as [s' [a|e]]; simpl in *.
  - eapply ok_trans; [exact Hm | apply Hk].
  - exact Hm.
Qed.

Lemma ok_try_except {A} (m h : M A) handles s :
  ok s (m s).1 -> (forall s', ok s' (h s').1) -> ok s (try_except m handles h s).1.
Proof.
  intros Hm Hh. unfold try_except. destruct (m s) as [s' [a|e]]; simpl in *;
    [exact Hm|].
  destruct (handles e); [|exact Hm].
  eapply ok_trans; [exact Hm | apply Hh].
Qed.

Lemma ok_events s evs :
  (in_place s -> Forall required (outbound_headers evs)) -> ok s (add_events s evs).
Proof.
  intros Hr. split; [reflexivity|]. exists evs. split; [reflexivity | exact Hr].
Qed.

Lemma ok_emit_quiet e s : outbound_headers [e] = [] -> ok s (emit e s).1.
Proof.
  intros Hq. apply (ok_events s [e]). intros _. rewrite Hq. constructor.
Qed.

Lemma ok_lift {A} (r : result A) s : ok s (lift r s).1.
Proof. apply ok_refl. Qed.

Lemma ok_ret {A} (a : A) s : ok s (ret a s).1.
Proof. apply ok_refl. Qed.

(** Allocation touches no existing dict. *)
Lemma heap_alloc_grows (h : gmap loc (gmap string string)) d :
  h ⊆ <[fresh (dom h) := d]> h.
Proof. apply insert_subseteq, fresh_loc_unused. Qed.

(** With the defaults in place, what [_build_headers()] builds carries the
    four required headers. *)
Lemma built_default_required s : in_place s -> required (built_headers config s extras_default).
Proof.
  intros [Hd He]. unfold built_headers, carries_required.
  rewrite !(lookup_total_correct _ _ _ Hd), !(lookup_total_correct _ _ _ He).
  rewrite (left_id_L ∅ (∪)).
  repeat split; try (rewrite lookup_insert_ne by discriminate; reflexivity);
    try apply lookup_insert_eq.
Qed.

(** The cookie is set last: no content of [extras] displaces it. *)
Lemma built_cookie s x :
  built_headers config s x !! "Cookie" = Some ("POESESSID=" +:+ poesessid config).
Proof. unfold built_headers. apply lookup_insert_eq. Qed.

Lemma ok_after_call s x evs :
  (in_place s -> Forall required (outbound_headers evs)) ->
  ok s (after_call config s x evs).
Proof.
  intros Hr. split; [apply heap_alloc_grows|]. exists evs. split; [reflexivity | exact Hr].
Qed.

Lemma ok_build_headers x s : ok s (_build_headers config x s).1.
Proof.
  rewrite build_headers_run. split; [apply heap_alloc_grows|].
  exists []. rewrite app_nil_r. split; [reflexivity|]. intros _. constructor.
Qed.

(** One round trip, when the headers it builds are the required ones. *)
Lemma ok_call m u ps d x raise_error s :
  (in_place s -> required (built_headers config s x)) ->
  ok s (call net config m u ps d x raise_error s).1.
Proof.
  intros Hreq. rewrite call_run. apply ok_after_call.
  intros Hin. rewrite round_trip_outbound. constructor; [apply Hreq, Hin | constructor].
Qed.

Lemma ok_response_json res s : ok s (response_json res s).1.
Proof. unfold response_json. destruct (json_body res); apply ok_refl. Qed.

Lemma ok_search doc s : ok s (_search net extras_default config doc s).1.
Proof.
  rewrite search_as_call. apply ok_bind.
  - apply ok_call, built_default_required.
  - intros. apply ok_response_json.
Qed.

Lemma ok_fetch u q s : ok s (_fetch net extras_default config u q s).1.
Proof.
  rewrite fetch_as_call. apply ok_bind.
  - apply ok_call, built_default_required.
  - intros. apply ok_response_json.
Qed.

End Frame.

(** A bind whose first step is one of the basic actions. *)
Ltac ok_step :=
  apply ok_bind;
  [ lazymatch goal with
    | |- step_ok _ _ _ (fst (lift _ _)) => apply ok_lift
    | |- step_ok _ _ _ (fst (_search _ _ _ _ _)) => apply ok_search
    | |- step_ok _ _ _ (fst (_fetch _ _ _ _ _ _)) => apply ok_fetch
    | |- step_ok _ _ _ (fst (emit _ _)) => apply ok_emit_quiet; reflexivity
    end
  | intros ].

Section FrameOps.
Variable net : list PreparedRequest -> PreparedRequest -> send_outcome.
Variable json_loads : string -> option json.
Variable py_repr : json -> string.
Variable extras_default : loc.
Variable config : ClientConfig.

Abbreviation ok' := (step_ok extras_default config).

Lemma open_stream_run u q s :
  open_stream extras_default config u q s
  = (mkState (<[fresh (dom (heap s)) := built_headers config s extras_default]> (heap s))
       (sess s)
       (trace s ++ [EvWsRun u (built_headers config s extras_default) q]), Ok tt).
Proof.
  unfold open_stream. rewrite (bind_ok _ _ _ _ _ (build_headers_run config _ s)).
  unfold bind, dict_read, emit. simpl. rewrite lookup_total_insert_eq. reflexivity.
Qed.

Lemma ok_open_stream u q s : ok' s (open_stream extras_default config u q s).1.
Proof.
  rewrite open_stream_run. split; [apply heap_alloc_grows|].
  eexists. split; [reflexivity|]. intros Hin. simpl.
  constructor; [apply built_default_required, Hin | constructor].
Qed.

Lemma whisper_as_call token s :
  _whisper net config token s
  = bind (call net config "POST" (_build_whisper_url config) []
            (Some (JObj [("token", token)])) (fresh (dom (heap s))) false)
         (fun res => try_except (response_json res) is_JSONDecodeError
                       (log WARNING MsgWhisperNotJSON ;;; ret invalid_json_response))%py
         (with_whisper_extras s).
Proof.
  unfold _whisper. erewrite bind_ok by reflexivity.
  fold (with_whisper_extras s). unfold call. rewrite bind_assoc. reflexivity.
Qed.

Lemma ok_whisper_call token s : ok' s (_whisper net config token s).1.
Proof.
  rewrite whisper_as_call.
  apply ok_trans with (s2 := with_whisper_extras s).
  - split; [apply heap_alloc_grows|]. exists []. simpl. rewrite app_nil_r.
    split; [reflexivity|]. intros _. constructor.
  - apply ok_bind.
    + apply ok_call. intros [Hd _]. unfold built_headers, carries_required.
      rewrite !(lookup_total_correct _ _ _ Hd).
      cbn [heap with_whisper_extras]. rewrite lookup_total_insert_eq.
      repeat split; try (rewrite lookup_insert_ne by discriminate; reflexivity);
        try apply lookup_insert_eq.
    + intros res s'. apply ok_try_except.
      * apply ok_response_json.
      * intros s''. unfold log. ok_step. apply ok_ret.
Qed.

Lemma ok_normal_search cfg s : ok' s (_normal_search net extras_default config cfg s).1.
Proof.
  unfold _normal_search, log.
  ok_step. ok_step.
  match goal with |- context [negb ?b] => destruct (negb b) end.
  - ok_step. apply ok_ret.
  - ok_step. ok_step.
    match goal with |- context [_build_pages ?l 10] => destruct (_build_pages l 10) end.
    + ok_step. apply ok_ret.
    + ok_step. ok_step. apply ok_fetch.
Qed.

Lemma ok_live_search cfg s : ok' s (_live_search net py_repr extras_default config cfg s).1.
Proof.
  unfold _live_search.
  apply ok_bind.
  - destruct (log_level_of config <=? logging_DEBUG);
      [apply ok_emit_quiet; reflexivity | apply ok_ret].
  - intros _ s1. ok_step. ok_step. apply ok_open_stream.
Qed.

Lemma ok_handler q cb msg s :
  ok' s (_build_ws_message_handler net json_loads extras_default config q cb msg s).1.
Proof.
  unfold _build_ws_message_handler, log.
  ok_step. destruct (json_loads msg) as [msg_data|].
  - ok_step.
    match goal with |- context [if ?b then _ else _] => destruct b end;
      [|apply ok_ret].
    ok_step. ok_step. ok_step. ok_step.
    destruct cb as [f|]; [|apply ok_ret].
    ok_step. apply ok_lift.
  - apply ok_emit_quiet. reflexivity.
Qed.

Lemma ok_whisper listing s : ok' s (whisper net config listing s).1.
Proof.
  unfold whisper, log.
  ok_step.
  apply ok_bind; [apply ok_whisper_call|]. intros r s2.
  ok_step.
  apply ok_bind; [|intros; apply ok_ret].
  match goal with |- context [if ?b then _ else _] => destruct b end;
    [|apply ok_ret].
  ok_step. ok_step. apply ok_emit_quiet. reflexivity.
Qed.

Lemma ok_run_op op s : ok' s (run_op net json_loads py_repr extras_default config op s).1.
Proof.
  destruct op; unfold run_op, discard, search.
  - apply ok_bind; [apply ok_build_headers | intros; apply ok_ret].
  - apply ok_bind; [apply ok_search | intros; apply ok_ret].
  - apply ok_bind; [apply ok_fetch | intros; apply ok_ret].
  - apply ok_bind; [|intros; apply ok_ret].
    destruct (live cfg).
    + apply ok_bind; [apply ok_live_search | intros; apply ok_ret].
    + apply ok_bind; [apply ok_normal_search | intros; apply ok_ret].
  - apply ok_bind; [apply ok_whisper | intros; apply ok_ret].
  - apply ok_handler.
Qed.

Lemma ok_run_ops ops : forall s,
  ok' s (run_ops net json_loads py_repr extras_default config ops s).1.
Proof.
  induction ops as [|op ops IH]; intros s; cbn [run_ops].
  - apply ok_refl.
  - eapply ok_trans; [apply ok_run_op | apply IH].
Qed.

End FrameOps.

Section HeaderClaims.
Variable net : list PreparedRequest -> PreparedRequest -> send_outcome.
Variable json_loads : string -> option json.
Variable py_repr : json -> string.
Variable extras_default : loc.
Variable config : ClientConfig.

(** C9.  With the configuration's header dict holding the default header
    map (and the default-argument dict empty, as created), everything an
    operation sends -- the search, fetch and whisper requests and the
    header of the live stream -- carries the browser User-Agent, Accept,
    Content-Type application/json and the cookie POESESSID=<token>.  The
    cookie is written into the merged dict after the extras, so it is
    there whatever the extras hold. *)
Theorem C9_outbound_requests_carry_required_headers (op : operation) (s : state) :
  defaults_in_place extras_default config s ->
  (exists evs,
     trace (run_op net json_loads py_repr extras_default config op s).1 = trace s ++ evs /\
     Forall (carries_required config) (outbound_headers evs)) /\
  (forall x : loc,
     (_build_headers config x s).2 = Ok (fresh (dom (heap s))) /\
     heap (_build_headers config x s).1 !! fresh (dom (heap s))
       = Some (built_headers config s x) /\
     built_headers config s x !! "Cookie" = Some ("POESESSID=" +:+ poesessid config)).
Proof.
  intros Hin. split.
  - destruct (ok_run_op net json_loads py_repr extras_default config op s)
      as (_ & evs & Htrace & Hreq).
    exists evs. split; [exact Htrace | apply Hreq, Hin].
  - intros x. rewrite build_headers_run. cbn [fst snd heap].
    split; [reflexivity|]. split; [apply lookup_insert_eq | apply built_cookie].
Qed.

(** C10.  No sequence of client operations changes a dict that exists:
    the configuration's default header map and every extras dict,
    the shared default-argument dict included, keep their content.
    [_build_headers] returns a dict that did not exist before, so what one
    call merged cannot be seen by a later one: after any operations
    [_build_headers()] builds the same header map as before them. *)
Theorem C10_operations_never_mutate_header_dicts (ops : list operation) (s : state) :
  (forall l d, heap s !! l = Some d ->
     heap (run_ops net json_loads py_repr extras_default config ops s).1 !! l = Some d) /\
  (forall x : loc,
     (_build_headers config x s).2 = Ok (fresh (dom (heap s))) /\
     heap s !! fresh (dom (heap s)) = None /\
     forall l d, heap s !! l = Some d -> heap (_build_headers config x s).1 !! l = Some d) /\
  (is_Some (heap s !! default_headers config) ->
   is_Some (heap s !! extras_default) ->
   built_headers config (run_ops net json_loads py_repr extras_default config ops s).1
     extras_default
   = built_headers config s extras_default).
Proof.
  pose proof (ok_run_ops net json_loads py_repr extras_default config ops s) as [Hsub _].
  split; [|split].
  - intros l d Hl. eapply lookup_weaken; eassumption.
  - intros x. rewrite build_headers_run. cbn [fst snd heap].
    split; [reflexivity|]. split; [apply fresh_loc_unused|].
    intros l d Hl. eapply lookup_weaken; [exact Hl | apply heap_alloc_grows].
  - intros [d Hd] [e He]. unfold built_headers.
    rewrite (lookup_total_correct _ _ _ Hd), (lookup_total_correct _ _ _ He).
    rewrite (lookup_total_correct _ _ _ (lookup_weaken _ _ _ _ Hd Hsub)).
    rewrite (lookup_total_correct _ _ _ (lookup_weaken _ _ _ _ He Hsub)).
    reflexivity.
Qed.

End HeaderClaims.

Lemma C9_witness :
  Forall (carries_required Scenario.config0)
    (outbound_headers
       (trace (run_op Scenario.net23 MiniJson.loads Scenario.repr0 Scenario.extras0
                 Scenario.config0 (OpSearch Scenario.tabula) Scenario.state0).1)).
Proof.
  destruct (C9_outbound_requests_carry_required_headers Scenario.net23 MiniJson.loads
              Scenario.repr0 Scenario.extras0 Scenario.config0
              (OpSearch Scenario.tabula) Scenario.state0)
    as ((evs & Htrace & Hreq) & _); [split; reflexivity|].
  rewrite Htrace. exact Hreq.
Defined.

Lemma C10_witness :
  heap (run_ops Scenario.net23 MiniJson.loads Scenario.repr0 Scenario.extras0
          Scenario.config0
          [OpSearch Scenario.tabula; OpWhisper Scenario.listing0;
           OpOnMessage (JStr "q1") None frame_new_a_b]
          Scenario.state0).1 !! default_headers Scenario.config0
  = Some default_header_map /\
  heap (run_ops Scenario.net23 MiniJson.loads Scenario.repr0 Scenario.extras0
          Scenario.config0
          [OpSearch Scenario.tabula; OpWhisper Scenario.listing0;
           OpOnMessage (JStr "q1") None frame_new_a_b]
          Scenario.state0).1 !! Scenario.extras0
  = Some ∅.
Proof.
  destruct (C10_operations_never_mutate_header_dicts Scenario.net23 MiniJson.loads
              Scenario.repr0 Scenario.extras0 Scenario.config0
              [OpSearch Scenario.tabula; OpWhisper Scenario.listing0;
               OpOnMessage (JStr "q1") None frame_new_a_b]
              Scenario.state0) as (Hkeep & _ & _).
  split; apply Hkeep; reflexivity.
Defined.

(** ** The live search *)

Section LiveSearch.
Variable net : list PreparedRequest -> PreparedRequest -> send_outcome.
Variable py_repr : json -> string.
Variable extras_default : loc.
Variable config : ClientConfig.

(** When the initial search succeeds and its response carries an id, the
    live search sends that one POST and then opens one stream: at the live
    URL of that id, with a message handler built for that same id. *)
Theorem live_search_opens_stream_for_search_id
    (cfg : SearchConfig) (s : state) (sres : Response) fields (qid : json) :
  net (sent_requests (trace s))
      (mkPrepared "POST" (_build_search_url config) []
         (built_headers config s extras_default) (Some (_build_trade_request cfg)))
    = Sent sres ->
  raises_for_status sres = false ->
  json_body sres = Some (JObj fields) ->
  dict_get "id" fields = Some qid ->
  (_live_search net py_repr extras_default config cfg s).2 = Ok tt /\
  streams_opened (trace (_live_search net py_repr extras_default config cfg s).1)
    = streams_opened (trace s) ++ [(_build_livesearch_url py_repr config qid, qid)] /\
  sent_requests (trace (_live_search net py_repr extras_default config cfg s).1)
    = sent_requests (trace s)
      ++ [mkPrepared "POST" (_build_search_url config) []
            (built_headers config s extras_default) (Some (_build_trade_request cfg))].
Proof.
  intros Hpost Hstatus Hbody Hid.
  set (s0 := if log_level_of config <=? logging_DEBUG
             then add_events s [EvEnableTrace] else s).
  assert (Hfirst : (if log_level_of config <=? logging_DEBUG
                    then emit EvEnableTrace else ret tt) s = (s0, Ok tt))
    by (subst s0; destruct (log_level_of config <=? logging_DEBUG); reflexivity).
  assert (Hsent : sent_requests (trace s0) = sent_requests (trace s)).
  { subst s0. destruct (_ <=? _); simpl; [|reflexivity].
    autorewrite with traces. reflexivity. }
  assert (Hstreams : streams_opened (trace s0) = streams_opened (trace s)).
  { subst s0. destruct (_ <=? _); simpl; [|reflexivity].
    autorewrite with traces. reflexivity. }
  assert (Hbuilt : built_headers config s0 extras_default
                   = built_headers config s extras_default)
    by (subst s0; destruct (_ <=? _); reflexivity).
  assert (Hpost0 : net (sent_requests (trace s0))
            (mkPrepared "POST" (_build_search_url config) []
               (built_headers config s0 extras_default) (Some (_build_trade_request cfg)))
            = Sent sres) by (rewrite Hsent, Hbuilt; exact Hpost).
  assert (Hrun : exists s2,
             _live_search net py_repr extras_default config cfg s
             = open_stream extras_default config
                 (_build_livesearch_url py_repr config qid) qid s2 /\
             sent_requests (trace s2)
             = sent_requests (trace s)
               ++ [mkPrepared "POST" (_build_search_url config) []
                     (built_headers config s extras_default)
                     (Some (_build_trade_request cfg))] /\
             streams_opened (trace s2) = streams_opened (trace s)).
  { eexists. split.
    - unfold _live_search. rewrite (bind_ok _ _ _ _ _ Hfirst).
      rewrite (bind_ok _ _ _ _ _
                 (search_ok_run net extras_default config cfg s0 sres _
                    Hpost0 Hstatus Hbody)).
      erewrite bind_ok by (unfold lift, py_getitem; rewrite Hid; reflexivity).
      reflexivity.
    - cbn [trace after_call]. autorewrite with traces.
      rewrite Hsent, Hstreams, Hbuilt. split; reflexivity. }
  destruct Hrun as (s2 & Hrun & Hsent2 & Hstreams2).
  rewrite Hrun, open_stream_run. cbn [fst snd trace].
  autorewrite with traces. simpl. autorewrite with traces.
  rewrite Hsent2, Hstreams2. repeat split.
Qed.

End LiveSearch.

Lemma live_search_opens_stream_witness :
  streams_opened
    (trace (_live_search Scenario.net23 Scenario.repr0 Scenario.extras0 Scenario.config0
              (Scenario.tabula_live (Some Scenario.accept_item)) Scenario.state0).1)
  = [("wss://www.pathofexile.com/api/trade2/live/Standard/q1", JStr "q1")].
Proof.
  destruct (live_search_opens_stream_for_search_id Scenario.net23 Scenario.repr0
              Scenario.extras0 Scenario.config0
              (Scenario.tabula_live (Some Scenario.accept_item)) Scenario.state0
              (mkResponse 200 (Some (Scenario.search_body Scenario.ids23)))
              (Scenario.search_fields Scenario.ids23) (JStr "q1"))
    as (_ & Hstreams & _); [reflexivity | reflexivity | reflexivity | reflexivity |].
  rewrite Hstreams. vm_compute. reflexivity.
Defined.

(** * Further properties of the code *)

(** ** The pager, for every page width *)

Section PagerMore.
Context {A : Type}.
Implicit Types (rs page : list A) (pages : list (list A)).

Lemma pages_loop_concat (P : Z) rs : forall pages page pages' page',
  pages_loop P rs pages page = (pages', page') ->
  concat pages' ++ page' = concat pages ++ page ++ rs.
Proof.
  induction rs as [|r rs IH]; intros pages page pages' page' Hrun; simpl in Hrun.
  - inversion Hrun; subst. rewrite app_nil_r. reflexivity.
  - destruct (Z.of_nat (length page) <? P).
    + rewrite (IH _ _ _ _ Hrun), <- app_assoc. reflexivity.
    + rewrite (IH _ _ _ _ Hrun), concat_app. simpl.
      rewrite app_nil_r, <- app_assoc. reflexivity.
Qed.

(** Whatever the page width -- zero and negative widths included -- the
    batches, read in order, are the original list: no element is dropped,
    duplicated or moved. *)
Theorem build_pages_concat (ids : list A) (P : Z) :
  concat (_build_pages ids P) = ids.
Proof.
  unfold _build_pages. destruct (Z.of_nat (length ids) <=? P).
  - simpl. apply app_nil_r.
  - destruct (pages_loop P ids [] []) as [pages page] eqn:Hrun.
    pose proof (pages_loop_concat P ids [] [] _ _ Hrun) as Hcat. simpl in Hcat.
    destruct page as [|x page].
    + rewrite app_nil_r in Hcat. exact Hcat.
    + rewrite concat_app. simpl. rewrite app_nil_r. exact Hcat.
Qed.

(** Full batches followed by a last one are the consecutive slices. *)
Lemma full_batches_are_slices (n : nat) pages : forall page (ids : list A) (i : nat) b,
  Forall (fun p => length p = n) pages ->
  (length page <= n)%nat ->
  concat pages ++ page = ids ->
  (pages ++ [page]) !! i = Some b ->
  b = take n (drop (i * n) ids).
Proof.
  induction pages as [|p pages IH]; intros page ids i b Hfull Hlen Hcat Hi.
  - simpl in *. subst ids. destruct i as [|i]; simpl in Hi; [|discriminate].
    inversion Hi; subst. rewrite Nat.mul_0_l, drop_0, take_ge by lia. reflexivity.
  - apply Forall_cons in Hfull as [Hp Hfull]. simpl in Hcat. subst ids.
    destruct i as [|i]; simpl in Hi.
    + inversion Hi; subst. rewrite Nat.mul_0_l, drop_0, <- app_assoc.
      rewrite take_app_length. reflexivity.
    + subst n.
      replace (S i * length p)%nat with (length p + i * length p)%nat by lia.
      rewrite <- app_assoc, <- (drop_drop _ (i * length p) (length p)), drop_app_length.
      eapply IH; eauto.
Qed.

Lemma build_pages_lookup_slice (ids : list A) (P : Z) (i : nat) (b : list A) :
  0 < P ->
  _build_pages ids P !! i = Some b ->
  b = take (Z.to_nat P) (drop (i * Z.to_nat P) ids).
Proof.
  intros HP. unfold _build_pages.
  destruct (Z.of_nat (length ids) <=? P) eqn:Hle.
  - apply Z.leb_le in Hle. intros Hi.
    destruct i as [|i]; simpl in Hi; [|discriminate]. inversion Hi; subst.
    rewrite Nat.mul_0_l, drop_0, take_ge by lia. reflexivity.
  - apply Z.leb_gt in Hle.
    destruct (pages_loop P ids [] []) as [pages page] eqn:Hrun.
    destruct (pages_loop_spec P ids [] [] HP ltac:(constructor) ltac:(simpl; lia) _ _ Hrun)
      as (Hfull & Hlen & Hcat & Hlast).
    simpl in Hcat.
    assert (Hpage : page <> []) by (apply Hlast; left; intros ->; simpl in Hle; lia).
    destruct page as [|x page]; [congruence|].
    apply (full_batches_are_slices (Z.to_nat P) pages (x :: page) ids i b).
    + eapply Forall_impl; [exact Hfull|]. intros p Hp. simpl in Hp. lia.
    + lia.
    + exact Hcat.
Qed.

(** For a positive page width, batch [i] is the slice
    [ids[i*P : (i+1)*P]]: every batch but the last holds exactly [P]
    elements, in the order of the list. *)
Theorem build_pages_batches_are_slices (ids : list A) (P : Z) (i : nat) (b : list A) :
  0 < P ->
  _build_pages ids P !! i = Some b ->
  b = take (Z.to_nat P) (drop (i * Z.to_nat P) ids).
Proof. apply build_pages_lookup_slice. Qed.

(** The number of batches, once more, for use below. *)
Lemma build_pages_count (ids : list A) (P : Z) :
  0 < P -> ids <> [] ->
  Z.of_nat (length (_build_pages ids P)) = ceil_div (Z.of_nat (length ids)) P.
Proof.
  intros HP Hne. unfold _build_pages, ceil_div.
  assert (HL : 0 < Z.of_nat (length ids)) by (destruct ids; [congruence | simpl; lia]).
  destruct (Z.of_nat (length ids) <=? P) eqn:Hle.
  - apply Z.leb_le in Hle. simpl.
    apply (Z.div_unique _ _ 1 (Z.of_nat (length ids) - 1)); lia.
  - apply Z.leb_gt in Hle.
    destruct (pages_loop P ids [] []) as [pages page] eqn:Hrun.
    destruct (pages_loop_spec P ids [] [] HP ltac:(constructor) ltac:(simpl; lia) _ _ Hrun)
      as (Hfull & Hlen & Hcat & Hlast).
    simpl in Hcat.
    assert (Hpage : page <> []) by (apply Hlast; left; assumption).
    destruct page as [|x page]; [congruence|].
    pose proof (concat_full_length P pages Hfull) as Hsize.
    assert (Htot : Z.of_nat (length ids)
                   = P * Z.of_nat (length pages) + Z.of_nat (length (x :: page))).
    { rewrite <- Hcat, length_app. lia. }
    rewrite length_app. simpl length at 1.
    apply (Z.div_unique _ _ _ (Z.of_nat (length (x :: page)) - 1)).
    + left. simpl in *. lia.
    + rewrite Htot. simpl. lia.
Qed.

Lemma last_singletons (x : list A) a l :
  last (x :: map (fun y => [y]) (a :: l)) <> Some [].
Proof.
  revert x a. induction l as [|c l IH]; intros x a; simpl.
  - discriminate.
  - apply (IH [a] c).
Qed.

Lemma pages_loop_nonpositive (P : Z) rs : forall pages page,
  P <= 0 ->
  (pages_loop P rs pages page).1 ++ [(pages_loop P rs pages page).2]
  = pages ++ [page] ++ map (fun x => [x]) rs.
Proof.
  induction rs as [|r rs IH]; intros pages page HP; simpl.
  - reflexivity.
  - destruct (Z.of_nat (length page) <? P) eqn:Hlt; [apply Z.ltb_lt in Hlt; lia|].
    rewrite IH by exact HP. rewrite <- app_assoc. reflexivity.
Qed.

(** For a page width of zero or less and a non-empty list, the pager
    returns an empty first batch followed by one single-element batch per
    element: the width is not a bound any more. *)
Theorem build_pages_nonpositive_width (ids : list A) (P : Z) :
  P <= 0 -> ids <> [] ->
  _build_pages ids P = [] :: map (fun x => [x]) ids.
Proof.
  intros HP Hne. unfold _build_pages.
  destruct (Z.of_nat (length ids) <=? P) eqn:Hle.
  - apply Z.leb_le in Hle. destruct ids; [congruence | simpl in Hle; lia].
  - pose proof (pages_loop_nonpositive P ids [] [] HP) as Hloop.
    destruct (pages_loop P ids [] []) as [pages page]. simpl in Hloop.
    destruct page as [|x page]; [|exact Hloop].
    exfalso. destruct ids as [|a ids]; [congruence|].
    apply (last_singletons [] a ids). rewrite <- Hloop. apply last_snoc.
Qed.

End PagerMore.

Lemma build_pages_slices_witness :
  _build_pages Scenario.ids23 10 !! 2%nat = Some ["id21"; "id22"; "id23"].
Proof.
  destruct (_build_pages Scenario.ids23 10 !! 2%nat) as [b|] eqn:Hb; [|discriminate Hb].
  rewrite (build_pages_batches_are_slices Scenario.ids23 10 2 b ltac:(lia) Hb).
  reflexivity.
Defined.

Lemma build_pages_nonpositive_witness :
  _build_pages ["a"; "b"; "c"] 0 = [[]; ["a"]; ["b"]; ["c"]].
Proof.
  apply (build_pages_nonpositive_width ["a"; "b"; "c"] 0); [lia | discriminate].
Defined.

(** ** URLs and headers *)

Lemma prefix_append (a b : string) : String.prefix a (a +:+ b) = true.
Proof.
  induction a as [|c a IH]; simpl; [destruct b; reflexivity|].
  destruct (ascii_dec c c); [exact IH | congruence].
Qed.

Lemma replace_absent (old new s : string) :
  str_contains old s = false -> str_replace old new s = s.
Proof.
  unfold str_replace. induction s as [|c s IH]; intros Habs; [reflexivity|].
  cbn [str_contains] in Habs. apply orb_false_iff in Habs as [Hpre Hrest].
  cbn [replace_from]. rewrite Hpre, IH by exact Hrest. reflexivity.
Qed.

Lemma replace_from_skip (old new o rest : string) :
  replace_from old new (String.length o) (o +:+ rest) = replace_from old new O rest.
Proof.
  induction o as [|c o IH]; simpl.
  - destruct rest; reflexivity.
  - exact IH.
Qed.

Lemma replace_prefix (c : ascii) (o new rest : string) :
  str_replace (String c o) new (String c o +:+ rest)
  = new +:+ str_replace (String c o) new rest.
Proof.
  unfold str_replace.
  change (String c o +:+ rest) with (String c (o +:+ rest)).
  cbn [replace_from].
  change (String c (o +:+ rest)) with (String c o +:+ rest).
  rewrite prefix_append. cbn [String.length Nat.pred].
  rewrite replace_from_skip. reflexivity.
Qed.

Section Urls.
Variable py_repr : json -> string.
Variable config : ClientConfig.

(** The live URL takes over the base URL with its scheme switched from
    https to wss; a base URL in which https does not occur (a plain-http
    test server, say) keeps its scheme, so the stream is then asked for
    over http. *)
Theorem build_livesearch_url_scheme (rest query_id : string) :
  str_contains "https" rest = false ->
  (base_url config = "https" +:+ rest ->
     _build_livesearch_url py_repr config (JStr query_id)
     = "wss" +:+ rest +:+ ("live/" +:+ league config +:+ "/" +:+ query_id)) /\
  (base_url config = rest ->
     _build_livesearch_url py_repr config (JStr query_id)
     = rest +:+ ("live/" +:+ league config +:+ "/" +:+ query_id)).
Proof.
  intros Habs. unfold _build_livesearch_url, format_value. split; intros ->.
  - rewrite (replace_prefix "h" "ttps" "wss" rest), (replace_absent _ _ _ Habs).
    reflexivity.
  - rewrite (replace_absent _ _ _ Habs). reflexivity.
Qed.


End Urls.

Lemma build_livesearch_url_witness :
  _build_livesearch_url Scenario.repr0 Scenario.config0 (JStr "q1")
  = "wss://www.pathofexile.com/api/trade2/live/Standard/q1".
Proof.
  apply (build_livesearch_url_scheme Scenario.repr0 Scenario.config0
           "://www.pathofexile.com/api/trade2/" "q1"); reflexivity.
Defined.


(** ** Failure modes of a round trip *)

Lemma all_str_non_str (items : list json) :
  Exists (fun v => forall s, v <> JStr s) items -> all_str items = Raise TypeError.
Proof.
  induction 1 as [v items Hv | v items _ IH].
  - destruct v; try reflexivity. exfalso. eapply Hv. reflexivity.
  - destruct v; try reflexivity. cbn [all_str]. rewrite IH. reflexivity.
Qed.

Section RoundTrips.
Variable net : list PreparedRequest -> PreparedRequest -> send_outcome.
Variable extras_default : loc.
Variable config : ClientConfig.
Variable s : state.

(** What a caller of [_fetch] can get, by status and body of the
    response: a 4xx or 5xx status raises HTTPError whatever the body holds;
    any other status -- 1xx, 2xx, 3xx, 600 and above -- counts as success,
    and then a body that is not JSON raises JSONDecodeError, uncaught here
    (only [_whisper] catches it), and a JSON body is returned decoded. *)
Theorem fetch_outcome_by_status_and_body (u : string) (q : json) (res : Response) :
  net (sent_requests (trace s))
      (mkPrepared "GET" u [("query", q)] (built_headers config s extras_default) None)
    = Sent res ->
  (400 <= status_code res < 600 ->
     (_fetch net extras_default config u q s).2 = Raise (HTTPError (status_code res))) /\
  (status_code res < 400 \/ 600 <= status_code res ->
     json_body res = None ->
     (_fetch net extras_default config u q s).2 = Raise JSONDecodeError) /\
  (status_code res < 400 \/ 600 <= status_code res ->
     forall v, json_body res = Some v ->
     (_fetch net extras_default config u q s).2 = Ok v).
Proof.
  intros Hnet. rewrite fetch_run, Hnet. cbn [snd].
  unfold json_outcome, response_outcome, raises_for_status. cbn [andb].
  split; [|split].
  - intros [Hlo Hhi].
    apply Z.leb_le in Hlo. apply Z.ltb_lt in Hhi. rewrite Hlo, Hhi. reflexivity.
  - intros Hrange Hbody.
    assert (Hno : (400 <=? status_code res) && (status_code res <? 600) = false).
    { apply andb_false_iff. destruct Hrange as [H|H];
        [left; apply Z.leb_gt | right; apply Z.ltb_ge]; lia. }
    rewrite Hno. cbn. unfold body_of. rewrite Hbody. reflexivity.
  - intros Hrange v Hbody.
    assert (Hno : (400 <=? status_code res) && (status_code res <? 600) = false).
    { apply andb_false_iff. destruct Hrange as [H|H];
        [left; apply Z.leb_gt | right; apply Z.ltb_ge]; lia. }
    rewrite Hno. cbn. unfold body_of. rewrite Hbody. reflexivity.
Qed.

(** No response at all (connection refused, timeout): the exception of
    the transport leaves [_search] as it is, after the one attempt; nothing
    is retried and nothing is logged above DEBUG. *)
Theorem search_transport_failure_propagates (doc : json) :
  net (sent_requests (trace s))
      (mkPrepared "POST" (_build_search_url config) []
         (built_headers config s extras_default) (Some doc))
    = SendFailed ->
  (_search net extras_default config doc s).2 = Raise RequestException /\
  length (sent_requests (trace (_search net extras_default config doc s).1))
    = S (length (sent_requests (trace s))) /\
  Forall (fun l => l.1 = DEBUG)
    (drop (length (logged (trace s)))
          (logged (trace (_search net extras_default config doc s).1))).
Proof.
  intros Hnet. rewrite search_run, Hnet. cbn [fst snd trace after_call].
  split; [reflexivity|]. autorewrite with traces. split.
  - rewrite length_app. simpl. lia.
  - simpl. rewrite drop_app_length. repeat constructor.
Qed.

End RoundTrips.

Lemma fetch_outcome_witness :
  (_fetch (Scenario.mock SendFailed (Sent (mkResponse 304 None))) Scenario.extras0
     Scenario.config0 "https://www.pathofexile.com/api/trade2/fetch/a" (JStr "q1")
     Scenario.state0).2 = Raise JSONDecodeError.
Proof.
  destruct (fetch_outcome_by_status_and_body
              (Scenario.mock SendFailed (Sent (mkResponse 304 None))) Scenario.extras0
              Scenario.config0 Scenario.state0
              "https://www.pathofexile.com/api/trade2/fetch/a" (JStr "q1")
              (mkResponse 304 None) eq_refl) as (_ & Hnojson & _).
  apply Hnojson; [left; simpl; lia | reflexivity].
Defined.

Lemma search_transport_failure_witness :
  (_search (Scenario.mock SendFailed SendFailed) Scenario.extras0 Scenario.config0
     (JObj []) Scenario.state0).2 = Raise RequestException.
Proof.
  apply (search_transport_failure_propagates (Scenario.mock SendFailed SendFailed)
           Scenario.extras0 Scenario.config0 Scenario.state0 (JObj [])).
  reflexivity.
Defined.

(** ** More on the normal search *)

Section NormalSearchMore.
Variable net : list PreparedRequest -> PreparedRequest -> send_outcome.
Variable extras_default : loc.
Variable config : ClientConfig.
Variable cfg : SearchConfig.
Variable s : state.

Abbreviation the_post :=
  (mkPrepared "POST" (_build_search_url config) []
     (built_headers config s extras_default) (Some (_build_trade_request cfg))).

(** A search response that has a result list but no id -- the shape of a
    fetch response -- makes the normal search raise KeyError for id, after
    the search POST alone: no fetch is attempted without a query
    identifier. *)
Theorem normal_search_without_id_raises
    (sres : Response) fields (ids : list string) :
  net (sent_requests (trace s)) the_post = Sent sres ->
  raises_for_status sres = false ->
  json_body sres = Some (JObj fields) ->
  dict_get "result" fields = Some (JArr (JStr <$> ids)) ->
  dict_get "id" fields = None ->
  (_normal_search net extras_default config cfg s).2 = Raise (KeyError "id") /\
  sent_requests (trace (_normal_search net extras_default config cfg s).1)
    = sent_requests (trace s) ++ [the_post].
Proof.
  intros Hpost Hstatus Hbody Hresult Hid.
  unfold _normal_search.
  rewrite (bind_ok _ _ _ _ _ (search_ok_run _ _ _ _ _ _ _ Hpost Hstatus Hbody)).
  erewrite bind_ok by (unfold lift, py_in; rewrite Hresult; reflexivity).
  cbn [negb].
  erewrite bind_ok by (unfold lift, py_getitem; rewrite Hresult; reflexivity).
  erewrite bind_ok by reflexivity.
  destruct (build_pages_head (JStr <$> ids) 10 ltac:(lia)) as [rest Hpages].
  rewrite Hpages. cbv beta iota. change (Z.to_nat 10) with 10%nat.
  rewrite <- fmap_take.
  erewrite bind_ok by (unfold lift; rewrite build_fetch_url_strs; reflexivity).
  erewrite bind_raise by (unfold lift, py_getitem; rewrite Hid; reflexivity).
  cbn [fst snd trace after_call]. autorewrite with traces. split; reflexivity.
Qed.

(** An id among the first ten that is not a string (a number, say) makes
    the normal search raise TypeError while it joins the ids, before any
    fetch; ids beyond the first ten are never looked at. *)
Theorem normal_search_non_string_id_raises
    (sres : Response) fields (items : list json) :
  net (sent_requests (trace s)) the_post = Sent sres ->
  raises_for_status sres = false ->
  json_body sres = Some (JObj fields) ->
  dict_get "result" fields = Some (JArr items) ->
  Exists (fun v => forall i, v <> JStr i) (take 10 items) ->
  (_normal_search net extras_default config cfg s).2 = Raise TypeError /\
  sent_requests (trace (_normal_search net extras_default config cfg s).1)
    = sent_requests (trace s) ++ [the_post].
Proof.
  intros Hpost Hstatus Hbody Hresult Hbad.
  unfold _normal_search.
  rewrite (bind_ok _ _ _ _ _ (search_ok_run _ _ _ _ _ _ _ Hpost Hstatus Hbody)).
  erewrite bind_ok by (unfold lift, py_in; rewrite Hresult; reflexivity).
  cbn [negb].
  erewrite bind_ok by (unfold lift, py_getitem; rewrite Hresult; reflexivity).
  erewrite bind_ok by reflexivity.
  destruct (build_pages_head items 10 ltac:(lia)) as [rest Hpages].
  rewrite Hpages. cbv beta iota. change (Z.to_nat 10) with 10%nat.
  erewrite bind_raise
    by (unfold lift, _build_fetch_url, py_join;
        rewrite (all_str_non_str _ Hbad); reflexivity).
  cbn [fst snd trace after_call]. autorewrite with traces. split; reflexivity.
Qed.

(** Whatever the service answers, a normal search sends the search POST
    first and after it at most one request, a GET: it never fetches a
    second batch. *)
Theorem normal_search_at_most_one_fetch :
  sent_requests (trace (_normal_search net extras_default config cfg s).1)
    = sent_requests (trace s) ++ [the_post]
  \/ exists g, p_method g = "GET" /\
       sent_requests (trace (_normal_search net extras_default config cfg s).1)
       = sent_requests (trace s) ++ [the_post; g].
Proof.
  remember (_normal_search net extras_default config cfg s) as run eqn:Hrun.
  unfold _normal_search in Hrun. unfold bind at 1 in Hrun. rewrite search_run in Hrun.
  match type of Hrun with context [after_call config s extras_default ?evs] =>
    set (s1 := after_call config s extras_default evs) in Hrun end.
  assert (Hs1 : sent_requests (trace s1) = sent_requests (trace s) ++ [the_post])
    by (subst s1; cbn [trace after_call]; autorewrite with traces; reflexivity).
  assert (Hlog : forall l m a,
            sent_requests (trace ((log l m ;;; ret a) s1 : state * result json).1)
            = sent_requests (trace s) ++ [the_post]).
  { intros. unfold bind, log, emit, ret. cbn [fst trace].
    rewrite sent_requests_app, Hs1. apply app_nil_r. }
  destruct (json_outcome _) as [search_res|e]; [|subst run; left; exact Hs1].
  unfold bind at 1, lift at 1 in Hrun.
  destruct (py_in "result" search_res) as [[|]|e]; cbn [negb] in Hrun;
    [| subst run; left; apply Hlog | subst run; left; exact Hs1].
  unfold bind at 1, lift at 1 in Hrun.
  destruct (py_getitem "result" search_res) as [r|e]; [|subst run; left; exact Hs1].
  unfold bind at 1, lift at 1 in Hrun.
  destruct (py_iter r) as [all_results|e]; [|subst run; left; exact Hs1].
  destruct (_build_pages all_results 10) as [|page0 rest].
  - subst run. left. apply Hlog.
  - unfold bind at 1, lift at 1 in Hrun.
    destruct (_build_fetch_url config page0) as [built_url|e];
      [|subst run; left; exact Hs1].
    unfold bind at 1, lift at 1 in Hrun.
    destruct (py_getitem "id" search_res) as [query_id|e];
      [|subst run; left; exact Hs1].
    rewrite fetch_run in Hrun. subst run. right. cbn [fst trace after_call].
    eexists. split; [|rewrite sent_requests_app, round_trip_sent, Hs1, <- app_assoc;
                      reflexivity].
    reflexivity.
Qed.

End NormalSearchMore.

Lemma normal_search_without_id_witness :
  (_normal_search
     (Scenario.mock (Scenario.ok_response (JObj [("result", JArr [JStr "a"])])) SendFailed)
     Scenario.extras0 Scenario.config0 Scenario.tabula Scenario.state0).2
  = Raise (KeyError "id").
Proof.
  apply (normal_search_without_id_raises
           (Scenario.mock (Scenario.ok_response (JObj [("result", JArr [JStr "a"])]))
              SendFailed)
           Scenario.extras0 Scenario.config0 Scenario.tabula Scenario.state0
           (mkResponse 200 (Some (JObj [("result", JArr [JStr "a"])])))
           [("result", JArr [JStr "a"])] ["a"]); reflexivity.
Defined.

Lemma normal_search_non_string_id_witness :
  (_normal_search
     (Scenario.mock
        (Scenario.ok_response (JObj [("id", JStr "q1"); ("result", JArr [JStr "a"; JNum 7])]))
        SendFailed)
     Scenario.extras0 Scenario.config0 Scenario.tabula Scenario.state0).2
  = Raise TypeError.
Proof.
  apply (normal_search_non_string_id_raises
           (Scenario.mock
              (Scenario.ok_response
                 (JObj [("id", JStr "q1"); ("result", JArr [JStr "a"; JNum 7])]))
              SendFailed)
           Scenario.extras0 Scenario.config0 Scenario.tabula Scenario.state0
           (mkResponse 200
              (Some (JObj [("id", JStr "q1"); ("result", JArr [JStr "a"; JNum 7])])))
           [("id", JStr "q1"); ("result", JArr [JStr "a"; JNum 7])]
           [JStr "a"; JNum 7]); try reflexivity.
  apply Exists_cons_tl, Exists_cons_hd. discriminate.
Defined.

(** ** More on the message handler *)

Section HandlerMore.
Variable net : list PreparedRequest -> PreparedRequest -> send_outcome.
Variable json_loads : string -> option json.
Variable extras_default : loc.
Variable config : ClientConfig.
Variable search_id : json.

Abbreviation the_handler :=
  (_build_ws_message_handler net json_loads extras_default config search_id).

(** Every notification costs exactly one request, also one whose list of
    new ids is empty (the GET then goes to the bare fetch prefix) and also
    when no callback was given: the fetch is made and its result dropped. *)
Theorem handler_notification_one_request
    (cb : option (json -> result unit)) msg fields (ids : list string) (s : state) :
  json_loads msg = Some (JObj fields) ->
  dict_get "new" fields = Some (JArr (JStr <$> ids)) ->
  sent_requests (trace (the_handler cb msg s).1)
    = sent_requests (trace s) ++ [notified_get_in extras_default config search_id s ids] /\
  (cb = None ->
     callback_args (trace (the_handler cb msg s).1) = callback_args (trace s) /\
     forall v,
       json_outcome (net (sent_requests (trace s))
                         (notified_get_in extras_default config search_id s ids)) = Ok v ->
       (the_handler cb msg s).2 = Ok tt).
Proof.
  intros Hdec Hnew.
  rewrite (notification_run net json_loads extras_default config search_id cb
             msg fields ids s Hdec Hnew).
  cbv zeta.
  destruct (json_outcome _) as [v|e]; destruct cb as [f|];
    cbn [fst snd trace add_events after_call]; autorewrite with traces; simpl;
    autorewrite with traces; (split; [reflexivity|]); intros Hcb;
    try discriminate Hcb; split; try reflexivity; intros v' Hv; congruence.
Qed.

(** A frame that is valid JSON but no container -- null, a boolean, a
    number -- makes the handler raise TypeError at the test for the new
    field: only frames that fail to decode are skipped with a warning. *)
Theorem handler_scalar_frame_raises
    (cb : option (json -> result unit)) msg (v : json) (s : state) :
  json_loads msg = Some v ->
  v = JNull \/ (exists b, v = JBool b) \/ (exists z, v = JNum z) ->
  (the_handler cb msg s).2 = Raise TypeError /\
  sent_requests (trace (the_handler cb msg s).1) = sent_requests (trace s) /\
  callback_args (trace (the_handler cb msg s).1) = callback_args (trace s).
Proof.
  intros Hdec Hscalar. unfold _build_ws_message_handler. rewrite Hdec.
  unfold bind, log, emit, lift.
  destruct Hscalar as [-> | [[b ->] | [z ->]]]; cbn;
    autorewrite with traces; simpl; autorewrite with traces; repeat split.
Qed.

(** A notification with an id that is not a string raises TypeError
    before anything is sent. *)
Theorem handler_non_string_id_raises
    (cb : option (json -> result unit)) msg fields (items : list json) (s : state) :
  json_loads msg = Some (JObj fields) ->
  dict_get "new" fields = Some (JArr items) ->
  Exists (fun v => forall i, v <> JStr i) items ->
  (the_handler cb msg s).2 = Raise TypeError /\
  sent_requests (trace (the_handler cb msg s).1) = sent_requests (trace s).
Proof.
  intros Hdec Hnew Hbad. unfold _build_ws_message_handler. rewrite Hdec.
  erewrite bind_ok by reflexivity.
  erewrite bind_ok by (unfold lift, py_in; rewrite Hnew; reflexivity).
  cbv beta iota.
  erewrite bind_ok by (unfold lift, py_getitem; rewrite Hnew; reflexivity).
  erewrite bind_ok by reflexivity.
  erewrite bind_raise
    by (unfold lift, _build_fetch_url, py_join;
        rewrite (all_str_non_str _ Hbad); reflexivity).
  cbn [fst snd trace]. autorewrite with traces. split; reflexivity.
Qed.

(** What the callback raises leaves the handler, after the fetch was made
    and the callback was called once with its result. *)
Theorem handler_callback_error_propagates
    (f : json -> result unit) msg fields (ids : list string) (v : json) (e : exn)
    (s : state) :
  json_loads msg = Some (JObj fields) ->
  dict_get "new" fields = Some (JArr (JStr <$> ids)) ->
  json_outcome (net (sent_requests (trace s))
                    (notified_get_in extras_default config search_id s ids)) = Ok v ->
  f v = Raise e ->
  (the_handler (Some f) msg s).2 = Raise e /\
  callback_args (trace (the_handler (Some f) msg s).1) = callback_args (trace s) ++ [v].
Proof.
  intros Hdec Hnew Hout Hf.
  rewrite (notification_run net json_loads extras_default config search_id (Some f)
             msg fields ids s Hdec Hnew).
  cbv zeta. rewrite Hout.
  cbn [fst snd trace add_events after_call]. autorewrite with traces. simpl.
  autorewrite with traces. split; [exact Hf | reflexivity].
Qed.

(** Frames that do not decode never end the run and never reach the
    service or the callback, however many arrive: each leaves a debug
    record and a warning, in arrival order. *)
Theorem undecodable_frames_only_warn
    (cb : option (json -> result unit)) (frames : list string) :
  Forall (fun f => json_loads f = None) frames ->
  forall s : state,
    (feed (the_handler cb) frames s).2 = Ok tt /\
    sent_requests (trace (feed (the_handler cb) frames s).1) = sent_requests (trace s) /\
    callback_args (trace (feed (the_handler cb) frames s).1) = callback_args (trace s) /\
    logged (trace (feed (the_handler cb) frames s).1)
    = logged (trace s)
      ++ flat_map (fun f => [(DEBUG, MsgReceivedMsg f); (WARNING, MsgInvalidJSONMessage)])
                  frames.
Proof.
  induction 1 as [|f frames Hf _ IH]; intros s.
  - cbn. rewrite app_nil_r. repeat split.
  - cbn [feed flat_map].
    rewrite (bind_ok _ _ _ _ _
               (handler_undecodable net json_loads extras_default config
                  search_id cb f s Hf)).
    destruct (IH (add_events s [EvLog DEBUG (MsgReceivedMsg f);
                                EvLog WARNING MsgInvalidJSONMessage]))
      as (Hres & Hsent & Hcalls & Hlogs).
    rewrite Hres, Hsent, Hcalls, Hlogs. cbn [trace add_events].
    autorewrite with traces. simpl. autorewrite with traces.
    rewrite <- app_assoc. repeat split.
Qed.

(** Notifications are served one at a time, in arrival order: against a
    service that answers every fetch, feeding n notifications yields n
    fetches whose URLs follow the frames' id lists in order, and n callback
    calls. *)
Theorem notifications_fetched_in_arrival_order
    (f : json -> result unit) (fres : Response) (v : json)
    (frames : list string) (idss : list (list string)) :
  (forall hist p, p_method p = "GET" -> net hist p = Sent fres) ->
  raises_for_status fres = false ->
  json_body fres = Some v ->
  f v = Ok tt ->
  Forall2 (fun frame ids => exists fields,
             json_loads frame = Some (JObj fields) /\
             dict_get "new" fields = Some (JArr (JStr <$> ids))) frames idss ->
  forall s : state,
    (feed (the_handler (Some f)) frames s).2 = Ok tt /\
    p_url <$> sent_requests (trace (feed (the_handler (Some f)) frames s).1)
    = (p_url <$> sent_requests (trace s))
      ++ ((fun ids => base_url config +:+ "fetch/" +:+ String.concat "," ids) <$> idss) /\
    callback_args (trace (feed (the_handler (Some f)) frames s).1)
    = callback_args (trace s) ++ replicate (length frames) v.
Proof.
  intros Hnet Hstatus Hbody Hf Hframes.
  induction Hframes as [|frame ids frames idss (fields & Hdec & Hnew) _ IH]; intros s.
  - cbn. rewrite !app_nil_r. repeat split.
  - pose proof (notification_run net json_loads extras_default config search_id (Some f)
                  frame fields ids s Hdec Hnew) as Hrun.
    cbv zeta in Hrun.
    rewrite (Hnet (sent_requests (trace s))
               (notified_get_in extras_default config search_id s ids) eq_refl) in Hrun.
    unfold json_outcome, response_outcome, body_of in Hrun.
    rewrite Hstatus in Hrun. cbn [andb rbind] in Hrun. rewrite Hbody, Hf in Hrun.
    cbn [feed]. rewrite (bind_ok _ _ _ _ _ Hrun).
    match goal with |- context [feed _ frames ?s1] => destruct (IH s1) as (Hres & Hsent & Hcalls) end.
    rewrite Hres, Hsent, Hcalls. cbn [trace add_events after_call].
    autorewrite with traces. simpl. autorewrite with traces.
    rewrite !fmap_app, <- !app_assoc. repeat split.
Qed.

End HandlerMore.

Lemma handler_notification_witness :
  p_url <$> sent_requests
    (trace (_build_ws_message_handler Scenario.net23 MiniJson.loads Scenario.extras0
              Scenario.config0 (JStr "q1") None
              (MiniJson.frame_text ["{"; "new"; ":[]}"]) Scenario.state0).1)
  = ["https://www.pathofexile.com/api/trade2/fetch/"].
Proof.
  destruct (handler_notification_one_request Scenario.net23 MiniJson.loads
              Scenario.extras0 Scenario.config0 (JStr "q1") None
              (MiniJson.frame_text ["{"; "new"; ":[]}"]) [("new", JArr [])] []
              Scenario.state0) as (Hsent & _); [reflexivity | reflexivity |].
  rewrite Hsent. reflexivity.
Defined.

Lemma handler_scalar_frame_witness :
  (_build_ws_message_handler Scenario.net23 MiniJson.loads Scenario.extras0
     Scenario.config0 (JStr "q1") None "42" Scenario.state0).2 = Raise TypeError.
Proof.
  apply (handler_scalar_frame_raises Scenario.net23 MiniJson.loads Scenario.extras0
           Scenario.config0 (JStr "q1") None "42" (JNum 42) Scenario.state0).
  - reflexivity.
  - right. right. exists 42. reflexivity.
Defined.

Lemma handler_non_string_id_witness :
  (_build_ws_message_handler Scenario.net23 MiniJson.loads Scenario.extras0
     Scenario.config0 (JStr "q1") None
     (MiniJson.frame_text ["{"; "new"; ":[7]}"]) Scenario.state0).2 = Raise TypeError.
Proof.
  apply (handler_non_string_id_raises Scenario.net23 MiniJson.loads Scenario.extras0
           Scenario.config0 (JStr "q1") None
           (MiniJson.frame_text ["{"; "new"; ":[7]}"]) [("new", JArr [JNum 7])]
           [JNum 7] Scenario.state0); try reflexivity.
  apply Exists_cons_hd. discriminate.
Defined.

Lemma handler_callback_error_witness :
  (_build_ws_message_handler Scenario.net23 MiniJson.loads Scenario.extras0
     Scenario.config0 (JStr "q1") (Some (fun _ => Raise CallbackError))
     frame_new_a_b Scenario.state0).2 = Raise CallbackError.
Proof.
  apply (handler_callback_error_propagates Scenario.net23 MiniJson.loads
           Scenario.extras0 Scenario.config0 (JStr "q1")
           (fun _ => Raise CallbackError) frame_new_a_b
           [("new", JArr [JStr "a"; JStr "b"])] ["a"; "b"]
           (JObj [("result", Scenario.ten_items)]) CallbackError Scenario.state0);
    reflexivity.
Defined.

Lemma undecodable_frames_witness :
  (feed (_build_ws_message_handler Scenario.net23 MiniJson.loads Scenario.extras0
           Scenario.config0 (JStr "q1") (Some Scenario.accept_item))
        [frame_not_json; "{"; "[1,"] Scenario.state0).2 = Ok tt.
Proof.
  apply (undecodable_frames_only_warn Scenario.net23 MiniJson.loads Scenario.extras0
           Scenario.config0 (JStr "q1") (Some Scenario.accept_item)
           [frame_not_json; "{"; "[1,"]).
  repeat constructor.
Defined.

Lemma notifications_in_order_witness :
  p_url <$> sent_requests
    (trace (feed (_build_ws_message_handler Scenario.net23 MiniJson.loads Scenario.extras0
                    Scenario.config0 (JStr "q1") (Some Scenario.accept_item))
                 [frame_new_a_b; MiniJson.frame_text ["{"; "new"; ":["; "c"; "]}"]]
                 Scenario.state0).1)
  = ["https://www.pathofexile.com/api/trade2/fetch/a,b";
     "https://www.pathofexile.com/api/trade2/fetch/c"].
Proof.
  destruct (notifications_fetched_in_arrival_order Scenario.net23 MiniJson.loads
              Scenario.extras0 Scenario.config0 (JStr "q1") Scenario.accept_item
              (mkResponse 200 (Some (JObj [("result", Scenario.ten_items)])))
              (JObj [("result", Scenario.ten_items)])
              [frame_new_a_b; MiniJson.frame_text ["{"; "new"; ":["; "c"; "]}"]]
              [["a"; "b"]; ["c"]]) with (s := Scenario.state0) as (_ & Hurls & _).
  - intros hist p Hget. unfold Scenario.net23, Scenario.mock. rewrite Hget. reflexivity.
  - reflexivity.
  - reflexivity.
  - reflexivity.
  - repeat constructor.
    + exists [("new", JArr [JStr "a"; JStr "b"])]. split; reflexivity.
    + exists [("new", JArr [JStr "c"])]. split; reflexivity.
  - rewrite Hurls. reflexivity.
Defined.

(** ** More on the live search *)

Lemma fetch_calls_app (t1 t2 : list event) :
  fetch_calls (t1 ++ t2) = fetch_calls t1 ++ fetch_calls t2.
Proof. unfold fetch_calls. rewrite sent_requests_app. apply List.filter_app. Qed.

Section LiveSearchMore.
Variable net : list PreparedRequest -> PreparedRequest -> send_outcome.
Variable py_repr : json -> string.
Variable extras_default : loc.
Variable config : ClientConfig.


End LiveSearchMore.

(** ** More on whisper *)

Section WhisperMore.
Variable net : list PreparedRequest -> PreparedRequest -> send_outcome.
Variable extras_default : loc.
Variable config : ClientConfig.
Variable s : state.

(** [_whisper] for either outcome of the send. *)
Lemma whisper_call_any (token : json) :
  let out := net (sent_requests (trace s)) (whisper_post config s token) in
  sent_requests (trace (_whisper net config token s).1)
    = sent_requests (trace s) ++ [whisper_post config s token] /\
  (_whisper net config token s).2
    = match out with
      | Sent res => Ok (whisper_value res)
      | SendFailed => Raise RequestException
      end.
Proof.
  intros out. subst out.
  remember (_whisper net config token s) as run eqn:Hrun.
  rewrite whisper_as_call in Hrun. unfold bind at 1 in Hrun. rewrite call_run in Hrun.
  change (trace (with_whisper_extras s)) with (trace s) in Hrun.
  fold (whisper_post config s token) in Hrun.
  destruct (net (sent_requests (trace s)) (whisper_post config s token)) as [res|].
  - cbn [response_outcome andb] in Hrun.
    unfold try_except, response_json in Hrun. unfold whisper_value.
    destruct (json_body res) as [v|];
      unfold raise, bind, log, emit, ret in Hrun;
      cbn [is_JSONDecodeError] in Hrun; subst run;
      cbn [fst snd trace after_call]; autorewrite with traces; simpl;
      autorewrite with traces; split; reflexivity.
  - cbn [response_outcome] in Hrun. subst run.
    cbn [fst snd trace after_call]. autorewrite with traces. split; reflexivity.
Qed.

(** A listing without a whisper token raises KeyError before anything is
    sent or logged. *)
Theorem whisper_without_token_raises (listing : list (string * json)) :
  dict_get "whisper_token" listing = None ->
  whisper net config (JObj listing) s = (s, Raise (KeyError "whisper_token")).
Proof.
  intros Htoken. unfold whisper.
  apply bind_raise. unfold lift, py_getitem. rewrite Htoken. reflexivity.
Qed.

(** Whisper tolerates statuses and bodies, not the absence of a response:
    a failure of the transport leaves [whisper] as it is, after the one
    attempt. *)
Theorem whisper_transport_failure_propagates
    (listing : list (string * json)) (token : json) :
  dict_get "whisper_token" listing = Some token ->
  net (sent_requests (trace s)) (whisper_post config s token) = SendFailed ->
  (whisper net config (JObj listing) s).2 = Raise RequestException /\
  sent_requests (trace (whisper net config (JObj listing) s).1)
    = sent_requests (trace s) ++ [whisper_post config s token].
Proof.
  intros Htoken Hnet.
  destruct (whisper_call_any token) as (Hsent & Hres). rewrite Hnet in Hres.
  assert (Hrun : whisper net config (JObj listing) s
                 = ((_whisper net config token s).1, Raise RequestException)).
  { unfold whisper.
    erewrite bind_ok by (unfold lift, py_getitem; rewrite Htoken; reflexivity).
    apply bind_raise.
    destruct (_whisper net config token s) as [s' r]. cbn [fst snd] in *.
    subst r. reflexivity. }
  rewrite Hrun. split; [reflexivity | exact Hsent].
Qed.

(** The one request of a whisper is a POST of the token to the whisper
    URL that carries X-Requested-With beside the four required headers;
    that extra header stays with this call: the header map built for the
    next call does not have it. *)
Theorem whisper_extra_header_stays_local
    (listing : list (string * json)) (token : json) :
  defaults_in_place extras_default config s ->
  dict_get "whisper_token" listing = Some token ->
  exists p,
    sent_requests (trace (whisper net config (JObj listing) s).1)
      = sent_requests (trace s) ++ [p] /\
    request_line p
      = ("POST", base_url config +:+ "whisper", [], Some (JObj [("token", token)])) /\
    p_headers p !! "X-Requested-With" = Some "XMLHttpRequest" /\
    carries_required config (p_headers p) /\
    built_headers config (whisper net config (JObj listing) s).1 extras_default
      !! "X-Requested-With" = None.
Proof.
  intros Hin Htoken. exists (whisper_post config s token).
  assert (Hsent : sent_requests (trace (whisper net config (JObj listing) s).1)
                  = sent_requests (trace s) ++ [whisper_post config s token]).
  { unfold whisper.
    erewrite bind_ok by (unfold lift, py_getitem; rewrite Htoken; reflexivity).
    destruct (whisper_call_any token) as (Hsent & _).
    unfold bind at 1.
    destruct (_whisper net config token s) as [s' [r|e]]; cbn [fst] in *;
      [|exact Hsent].
    unfold bind, lift, log, emit, ret.
    destruct (py_in "error" r) as [[|]|e]; cbn [fst]; try exact Hsent.
    destruct (py_getitem "error" r) as [v|e]; cbn [fst]; try exact Hsent.
    destruct (py_getitem "message" v) as [m|e]; cbn [fst trace]; try exact Hsent.
    rewrite sent_requests_app, Hsent. apply app_nil_r. }
  destruct Hin as [Hd He].
  assert (Hpost : p_headers (whisper_post config s token)
                  = <["Cookie" := "POESESSID=" +:+ poesessid config]>
                      (whisper_extras ∪ default_header_map)).
  { unfold whisper_post, built_headers. cbn [p_headers heap with_whisper_extras].
    rewrite lookup_total_insert_eq.
    rewrite (lookup_total_correct _ _ default_header_map); [reflexivity|].
    rewrite lookup_insert_ne; [exact Hd|].
    intros Heq. rewrite <- Heq, fresh_loc_unused in Hd. discriminate. }
  split; [exact Hsent|]. split; [reflexivity|]. rewrite Hpost.
  split; [reflexivity|]. split.
  - repeat split; try (rewrite lookup_insert_ne by discriminate; reflexivity);
      try apply lookup_insert_eq.
  - destruct (ok_whisper net extras_default config (JObj listing) s) as [Hsub _].
    unfold built_headers.
    rewrite (lookup_total_correct _ _ _ (lookup_weaken _ _ _ _ Hd Hsub)).
    rewrite (lookup_total_correct _ _ _ (lookup_weaken _ _ _ _ He Hsub)).
    reflexivity.
Qed.

(** An error the service reports in the documented shape is logged as a
    warning with its message, and the response is handed back unchanged:
    [whisper] reports a refusal by value, not by exception. *)
Theorem whisper_error_is_logged_and_returned
    (listing : list (string * json)) (token : json) (res : Response)
    fields efields (m : json) :
  dict_get "whisper_token" listing = Some token ->
  net (sent_requests (trace s)) (whisper_post config s token) = Sent res ->
  json_body res = Some (JObj fields) ->
  dict_get "error" fields = Some (JObj efields) ->
  dict_get "message" efields = Some m ->
  (whisper net config (JObj listing) s).2 = Ok (JObj fields) /\
  last (logged (trace (whisper net config (JObj listing) s).1))
    = Some (WARNING, MsgWhisperError m).
Proof.
  intros Htoken Hnet Hbody Herr Hmsg. unfold whisper.
  erewrite bind_ok by (unfold lift, py_getitem; rewrite Htoken; reflexivity).
  rewrite (bind_ok _ _ _ _ _ (whisper_call_run net config s token res Hnet)).
  unfold whisper_value. rewrite Hbody.
  erewrite bind_ok by (unfold lift, py_in; rewrite Herr; reflexivity).
  unfold bind, lift, log, emit, ret, py_getitem. rewrite Herr, Hmsg.
  cbn [fst snd trace]. split; [reflexivity|].
  rewrite logged_app. apply last_snoc.
Qed.

End WhisperMore.

Lemma whisper_without_token_witness :
  (whisper Scenario.net_whisper_400 Scenario.config0
     (JObj [("method", JStr "psapi")]) Scenario.state0).2
  = Raise (KeyError "whisper_token").
Proof.
  rewrite (whisper_without_token_raises Scenario.net_whisper_400 Scenario.config0
             Scenario.state0 [("method", JStr "psapi")] eq_refl).
  reflexivity.
Defined.

Lemma whisper_transport_failure_witness :
  (whisper (Scenario.mock SendFailed SendFailed) Scenario.config0 Scenario.listing0
     Scenario.state0).2 = Raise RequestException.
Proof.
  apply (whisper_transport_failure_propagates (Scenario.mock SendFailed SendFailed)
           Scenario.config0 Scenario.state0
           [("method", JStr "psapi"); ("whisper", JStr "@seller hi");
            ("whisper_token", JStr "tok")] (JStr "tok")); reflexivity.
Defined.

Lemma whisper_extra_header_witness :
  built_headers Scenario.config0
    (whisper Scenario.net_whisper_html Scenario.config0 Scenario.listing0
       Scenario.state0).1 Scenario.extras0 !! "X-Requested-With" = None.
Proof.
  destruct (whisper_extra_header_stays_local Scenario.net_whisper_html Scenario.extras0
              Scenario.config0 Scenario.state0
              [("method", JStr "psapi"); ("whisper", JStr "@seller hi");
               ("whisper_token", JStr "tok")] (JStr "tok"))
    as (p & _ & _ & _ & _ & Hnext); [split; reflexivity | reflexivity |].
  exact Hnext.
Defined.

Lemma whisper_error_logged_witness :
  (whisper
     (Scenario.mock
        (Sent (mkResponse 400
                 (Some (JObj [("error", JObj [("code", JNum 3);
                                              ("message", JStr "Rate limit exceeded")])]))))
        SendFailed)
     Scenario.config0 Scenario.listing0 Scenario.state0).2
  = Ok (JObj [("error", JObj [("code", JNum 3); ("message", JStr "Rate limit exceeded")])]).
Proof.
  apply (whisper_error_is_logged_and_returned
           (Scenario.mock
              (Sent (mkResponse 400
                       (Some (JObj [("error", JObj [("code", JNum 3);
                                                    ("message", JStr "Rate limit exceeded")])]))))
              SendFailed)
           Scenario.config0 Scenario.state0
           [("method", JStr "psapi"); ("whisper", JStr "@seller hi");
            ("whisper_token", JStr "tok")] (JStr "tok")
           (mkResponse 400
              (Some (JObj [("error", JObj [("code", JNum 3);
                                           ("message", JStr "Rate limit exceeded")])])))
           [("error", JObj [("code", JNum 3); ("message", JStr "Rate limit exceeded")])]
           [("code", JNum 3); ("message", JStr "Rate limit exceeded")]
           (JStr "Rate limit exceeded")); reflexivity.
Defined.

(** ** The entry point *)

(** The slices [main] cuts are the batches the client's pager builds: on
    a non-empty list the two ways of splitting agree, batch for batch. *)
Theorem main_chunks_are_pager_batches {A : Type} (ids : list A) :
  ids <> [] ->
  _build_pages ids 10
  = Entry.chunk_at ids <$> seq 0 (Z.to_nat (ceil_div (Z.of_nat (length ids)) 10)).
Proof.
  intros Hne.
  pose proof (build_pages_count ids 10 ltac:(lia) Hne) as Hcount.
  apply list_eq. intros i.
  rewrite list_lookup_fmap.
  destruct (decide (i < Z.to_nat (ceil_div (Z.of_nat (length ids)) 10))%nat) as [Hi|Hi].
  - rewrite lookup_seq_lt by exact Hi. simpl.
    destruct (_build_pages ids 10 !! i) as [b|] eqn:Hb.
    + rewrite (build_pages_lookup_slice ids 10 i b ltac:(lia) Hb). reflexivity.
    + apply lookup_ge_None in Hb. lia.
  - rewrite lookup_seq_ge by lia. simpl. apply lookup_ge_None. lia.
Qed.

Lemma main_chunks_witness :
  _build_pages Scenario.ids23 10
  = [Entry.chunk_at Scenario.ids23 0; Entry.chunk_at Scenario.ids23 1;
     Entry.chunk_at Scenario.ids23 2].
Proof.
  rewrite (main_chunks_are_pager_batches Scenario.ids23); [reflexivity | discriminate].
Defined.

Lemma abind_ok {A B} (m : Entry.App A) (k : A -> Entry.App B) w w' a :
  m w = (w', Ok a) -> Entry.abind m k w = k a w'.
Proof. intros H. unfold Entry.abind. rewrite H. reflexivity. Qed.

Lemma abind_raise {A B} (m : Entry.App A) (k : A -> Entry.App B) w w' e :
  m w = (w', Raise e) -> Entry.abind m k w = (w', Raise e).
Proof. intros H. unfold Entry.abind. rewrite H. reflexivity. Qed.

Lemma slice_of_ids (dict_slice_error : exn) (ids : list string) (i : nat) :
  Entry.py_slice dict_slice_error (i * Entry.page_size) ((i + 1) * Entry.page_size)
    (JArr (JStr <$> ids))
  = Ok (JArr (JStr <$> Entry.chunk_at ids i)).
Proof.
  unfold Entry.py_slice, Entry.chunk_at.
  replace ((i + 1) * Entry.page_size - i * Entry.page_size)%nat with Entry.page_size by lia.
  rewrite fmap_take, fmap_drop. reflexivity.
Qed.

Lemma chunk_at_nonempty {A} (ids : list A) (i : nat) :
  (i * Entry.page_size < length ids)%nat -> Entry.chunk_at ids i <> [].
Proof.
  intros Hi Hnil. unfold Entry.chunk_at in Hnil.
  apply (f_equal length) in Hnil. rewrite length_take, length_drop in Hnil.
  change (length (@nil A)) with 0%nat in Hnil. unfold Entry.page_size in *. lia.
Qed.

Section EntryLoop.
Variable net : list PreparedRequest -> PreparedRequest -> send_outcome.
Variable extras_default : loc.
Variable dict_slice_error : exn.
Variable conf : ClientConfig.
Variable query_id : json.

Abbreviation loop := (Entry.fetch_all_pages net extras_default dict_slice_error conf).
Abbreviation url_of chunk := (base_url conf +:+ "fetch/" +:+ String.concat "," chunk).

(** One turn of the loop up to the response of its fetch. *)
Lemma loop_turn (ids : list string) (i : nat) later acc w :
  (i * Entry.page_size < length ids)%nat ->
  loop (i :: later) (JArr (JStr <$> ids)) query_id acc w
  = Entry.abind
      (Entry.client_op (_fetch net extras_default conf (url_of (Entry.chunk_at ids i)) query_id))
      (fun fetch_res =>
         Entry.abind (Entry.alift (py_in "result" fetch_res)) (fun has_result =>
         if has_result : bool then
           Entry.abind (Entry.alift (py_getitem "result" fetch_res)) (fun r =>
           Entry.abind (Entry.alift (py_iter r)) (fun more =>
           Entry.abind (Entry.app_emit (Entry.AppSleep 200)) (fun _ =>
           loop later (JArr (JStr <$> ids)) query_id (acc ++ more))))
         else
           Entry.abind (Entry.app_emit (Entry.AppPrint Entry.MsgNoResultStopping))
             (fun _ => Entry.aret acc)))
      w.
Proof.
  intros Hi. cbn [Entry.fetch_all_pages].
  erewrite abind_ok by (unfold Entry.alift; rewrite slice_of_ids; reflexivity).
  pose proof (chunk_at_nonempty ids i Hi) as Hne.
  destruct (Entry.chunk_at ids i) as [|c chunk] eqn:Hchunk; [congruence|].
  rewrite fmap_cons. cbn [truthy negb].
  erewrite abind_ok by reflexivity.
  rewrite <- fmap_cons.
  erewrite abind_ok by (unfold Entry.alift; rewrite build_fetch_url_strs; reflexivity).
  reflexivity.
Qed.

(** A fetch from inside [main], against a service whose answer to a GET
    depends on its URL only. *)
Lemma app_fetch_run (answer : string -> send_outcome) u w :
  (forall hist p, p_method p = "GET" -> net hist p = answer (p_url p)) ->
  exists s',
    Entry.client_op (_fetch net extras_default conf u query_id) w
    = (Entry.mkApp s' (Entry.console w), json_outcome (answer u)) /\
    p_url <$> sent_requests (trace s')
    = (p_url <$> sent_requests (trace (Entry.client_state w))) ++ [u].
Proof.
  intros Hnet. unfold Entry.client_op. rewrite fetch_run.
  match goal with |- context [net ?h ?p] => rewrite (Hnet h p eq_refl) end. cbn [p_url].
  eexists. split; [reflexivity|].
  cbn [trace after_call]. autorewrite with traces. rewrite fmap_app. reflexivity.
Qed.

(** Against a service that answers every fetch with a result list, the
    loop of [main] over page indices [k .. k+m-1], all within the list,
    makes one fetch per index, in order, for the slice of that index;
    appends each result list to what it has; and sleeps after each. *)
Lemma loop_run (items_for : string -> list json) (ids : list string) :
  (forall hist p, p_method p = "GET" ->
     net hist p = Sent (mkResponse 200
                          (Some (JObj [("result", JArr (items_for (p_url p)))])))) ->
  forall m k acc w,
    (m = 0 \/ (k + m - 1) * Entry.page_size < length ids)%nat ->
    exists w',
      loop (seq k m) (JArr (JStr <$> ids)) query_id acc w
      = (w', Ok (acc ++ concat ((fun i => items_for (url_of (Entry.chunk_at ids i)))
                                <$> seq k m))) /\
      p_url <$> sent_requests (trace (Entry.client_state w'))
      = (p_url <$> sent_requests (trace (Entry.client_state w)))
        ++ ((fun i => url_of (Entry.chunk_at ids i)) <$> seq k m) /\
      Entry.console w' = Entry.console w ++ replicate m (Entry.AppSleep 200).
Proof.
  intros Hnet. induction m as [|m IH]; intros k acc w Hin.
  - exists w. cbn. rewrite !app_nil_r. repeat split.
  - assert (Hk : (k * Entry.page_size < length ids)%nat)
      by (unfold Entry.page_size in *; lia).
    assert (Hnext : (m = 0 \/ (S k + m - 1) * Entry.page_size < length ids)%nat)
      by (unfold Entry.page_size in *; lia).
    destruct (app_fetch_run
                (fun u => Sent (mkResponse 200 (Some (JObj [("result", JArr (items_for u))]))))
                (url_of (Entry.chunk_at ids k)) w Hnet) as (s' & Hfetch & Hsent).
    destruct (IH (S k) (acc ++ items_for (url_of (Entry.chunk_at ids k)))
                (Entry.mkApp s' (Entry.console w ++ [Entry.AppSleep 200])))
      as (w' & Hrun & Hsent' & Hcons); [exact Hnext|].
    exists w'. split; [|split].
    + cbn [seq]. rewrite loop_turn by exact Hk.
      rewrite (abind_ok _ _ _ _ _ Hfetch).
      erewrite abind_ok by (unfold Entry.alift; cbn; reflexivity).
      cbv beta iota.
      erewrite abind_ok by (unfold Entry.alift; cbn; reflexivity).
      erewrite abind_ok by (unfold Entry.alift; cbn [py_iter]; reflexivity).
      erewrite abind_ok by reflexivity.
      cbn [Entry.client_state Entry.console].
      refine (eq_trans Hrun _).
      rewrite fmap_cons. cbn [concat]. rewrite app_assoc. reflexivity.
    + rewrite Hsent'. cbn [Entry.client_state seq]. rewrite Hsent, fmap_cons, <- app_assoc.
      reflexivity.
    + rewrite Hcons. cbn [Entry.console replicate]. rewrite <- app_assoc. reflexivity.
Qed.

End EntryLoop.

Section EntryLoopClaims.
Variable net : list PreparedRequest -> PreparedRequest -> send_outcome.
Variable extras_default : loc.
Variable dict_slice_error : exn.
Variable conf : ClientConfig.
Variable query_id : json.

Abbreviation the_loop := (Entry.fetch_all_pages net extras_default dict_slice_error conf).
Abbreviation fetch_url chunk := (base_url conf +:+ "fetch/" +:+ String.concat "," chunk).

(** The loop of [main], run over [range(ceil(L/10))] against a service
    that answers every fetch with a result list: one fetch per slice of
    ten ids, in order, each for the query identifier; the result lists are
    appended in that order; a sleep of 200 ms follows every fetch.  For an
    empty list nothing is fetched. *)
Theorem main_loop_fetches_every_batch
    (items_for : string -> list json) (ids : list string) (acc : list json)
    (w : Entry.app_state) :
  (forall hist p, p_method p = "GET" ->
     net hist p = Sent (mkResponse 200
                          (Some (JObj [("result", JArr (items_for (p_url p)))])))) ->
  exists w',
    the_loop (seq 0 (Z.to_nat (ceil_div (Z.of_nat (length ids)) 10)))
      (JArr (JStr <$> ids)) query_id acc w
    = (w', Ok (acc ++ concat ((fun i => items_for (fetch_url (Entry.chunk_at ids i)))
                              <$> seq 0 (Z.to_nat (ceil_div (Z.of_nat (length ids)) 10))))) /\
    p_url <$> sent_requests (trace (Entry.client_state w'))
    = (p_url <$> sent_requests (trace (Entry.client_state w)))
      ++ ((fun i => fetch_url (Entry.chunk_at ids i))
          <$> seq 0 (Z.to_nat (ceil_div (Z.of_nat (length ids)) 10))) /\
    Entry.console w'
    = Entry.console w
      ++ replicate (Z.to_nat (ceil_div (Z.of_nat (length ids)) 10)) (Entry.AppSleep 200).
Proof.
  intros Hnet.
  apply (loop_run net extras_default dict_slice_error conf query_id items_for ids Hnet).
  unfold ceil_div, Entry.page_size.
  pose proof (Z.mul_div_le (Z.of_nat (length ids) + 10 - 1) 10 ltac:(lia)) as Hdiv.
  pose proof (Z.div_pos (Z.of_nat (length ids) + 10 - 1) 10 ltac:(lia) ltac:(lia)) as Hpos.
  destruct (Z.to_nat ((Z.of_nat (length ids) + 10 - 1) / 10)) as [|n'] eqn:Hn;
    [left; reflexivity | right]. lia.
Qed.

(** A fetch response without a result field ends the loop at once: what
    was accumulated so far is returned as the outcome, no later page is
    asked for, and no sleep follows. *)
Theorem main_loop_stops_without_result
    (ids : list string) (i : nat) (later : list nat) (acc : list json)
    (w : Entry.app_state) (fres : Response) fields :
  (i * 10 < length ids)%nat ->
  (forall hist p, p_method p = "GET" -> net hist p = Sent fres) ->
  raises_for_status fres = false ->
  json_body fres = Some (JObj fields) ->
  dict_get "result" fields = None ->
  exists w',
    the_loop (i :: later) (JArr (JStr <$> ids)) query_id acc w = (w', Ok acc) /\
    p_url <$> sent_requests (trace (Entry.client_state w'))
    = (p_url <$> sent_requests (trace (Entry.client_state w)))
      ++ [fetch_url (Entry.chunk_at ids i)] /\
    Entry.console w'
    = Entry.console w ++ [Entry.AppPrint Entry.MsgNoResultStopping].
Proof.
  intros Hi Hnet Hstatus Hbody Hresult.
  destruct (app_fetch_run net extras_default conf query_id (fun _ => Sent fres)
              (fetch_url (Entry.chunk_at ids i)) w Hnet) as (s' & Hfetch & Hsent).
  assert (Hout : json_outcome (Sent fres) = Ok (JObj fields)).
  { unfold json_outcome, response_outcome, body_of. rewrite Hstatus. cbn.
    rewrite Hbody. reflexivity. }
  rewrite Hout in Hfetch.
  eexists. split; [|split].
  - rewrite loop_turn by exact Hi.
    rewrite (abind_ok _ _ _ _ _ Hfetch).
    erewrite abind_ok by (unfold Entry.alift, py_in; rewrite Hresult; reflexivity).
    cbv beta iota.
    erewrite abind_ok by reflexivity. reflexivity.
  - exact Hsent.
  - reflexivity.
Qed.

End EntryLoopClaims.

Lemma main_loop_witness :
  p_url <$> sent_requests
    (trace (Entry.client_state
       (Entry.fetch_all_pages Scenario.net23 Scenario.extras0 TypeError Scenario.config0
          (seq 0 (Z.to_nat (ceil_div (Z.of_nat (length Scenario.ids23)) 10)))
          (JArr (JStr <$> Scenario.ids23)) (JStr "q1") []
          (Entry.mkApp Scenario.state0 [])).1))
  = ["https://www.pathofexile.com/api/trade2/fetch/id01,id02,id03,id04,id05,id06,id07,id08,id09,id10";
     "https://www.pathofexile.com/api/trade2/fetch/id11,id12,id13,id14,id15,id16,id17,id18,id19,id20";
     "https://www.pathofexile.com/api/trade2/fetch/id21,id22,id23"].
Proof.
  destruct (main_loop_fetches_every_batch Scenario.net23 Scenario.extras0 TypeError
              Scenario.config0 (JStr "q1")
              (fun _ => Scenario.hydrated <$> take 10 Scenario.ids23)
              Scenario.ids23 [] (Entry.mkApp Scenario.state0 []))
    as (w' & Hrun & Hurls & _).
  - intros hist p Hget. unfold Scenario.net23, Scenario.mock. rewrite Hget. reflexivity.
  - rewrite Hrun. cbn [fst]. rewrite Hurls. reflexivity.
Defined.

Lemma main_loop_stops_witness :
  (Entry.fetch_all_pages
     (Scenario.mock SendFailed (Scenario.ok_response (JObj [("error", JStr "gone")])))
     Scenario.extras0 TypeError Scenario.config0 [1; 2]%nat
     (JArr (JStr <$> Scenario.ids23)) (JStr "q1") [Scenario.hydrated "id01"]
     (Entry.mkApp Scenario.state0 [])).2
  = Ok [Scenario.hydrated "id01"].
Proof.
  destruct (main_loop_stops_without_result
              (Scenario.mock SendFailed (Scenario.ok_response (JObj [("error", JStr "gone")])))
              Scenario.extras0 TypeError Scenario.config0 (JStr "q1")
              Scenario.ids23 1 [2%nat] [Scenario.hydrated "id01"]
              (Entry.mkApp Scenario.state0 [])
              (mkResponse 200 (Some (JObj [("error", JStr "gone")])))
              [("error", JStr "gone")])
    as (w' & Hrun & _).
  - simpl. lia.
  - intros hist p Hget. unfold Scenario.mock. rewrite Hget. reflexivity.
  - reflexivity.
  - reflexivity.
  - reflexivity.
  - rewrite Hrun. reflexivity.
Defined.

(** ** [main] and the file it writes *)

Lemma writes_app (c1 c2 : list Entry.app_event) :
  Entry.writes (c1 ++ c2) = Entry.writes c1 ++ Entry.writes c2.
Proof. apply omap_app. Qed.

Lemma nothing_aret {A} (a : A) : Entry.writes_nothing (Entry.aret a).
Proof. intros w. reflexivity. Qed.

Lemma nothing_alift {A} (r : result A) : Entry.writes_nothing (Entry.alift r).
Proof. intros w. reflexivity. Qed.

Lemma nothing_client_op {A} (m : M A) : Entry.writes_nothing (Entry.client_op m).
Proof. intros w. unfold Entry.client_op. destruct (m (Entry.client_state w)). reflexivity. Qed.

Lemma nothing_print (msg : Entry.printed) :
  Entry.writes_nothing (Entry.app_emit (Entry.AppPrint msg)).
Proof. intros w. cbn. rewrite writes_app. apply app_nil_r. Qed.

Lemma nothing_sleep (ms : Z) : Entry.writes_nothing (Entry.app_emit (Entry.AppSleep ms)).
Proof. intros w. cbn. rewrite writes_app. apply app_nil_r. Qed.

Lemma nothing_bind {A B} (m : Entry.App A) (k : A -> Entry.App B) :
  Entry.writes_nothing m -> (forall a, Entry.writes_nothing (k a)) ->
  Entry.writes_nothing (Entry.abind m k).
Proof.
  intros Hm Hk w. specialize (Hm w). unfold Entry.abind.
  destruct (m w) as [w' [a|e]]; cbn [fst] in *; [|exact Hm].
  rewrite (Hk a w'). exact Hm.
Qed.

Lemma on_return_of_nothing {A} (m : Entry.App A) :
  Entry.writes_nothing m -> Entry.writes_on_return_only m.
Proof. intros Hm w. left. apply Hm. Qed.

Lemma on_return_bind {A B} (m : Entry.App A) (k : A -> Entry.App B) :
  Entry.writes_nothing m -> (forall a, Entry.writes_on_return_only (k a)) ->
  Entry.writes_on_return_only (Entry.abind m k).
Proof.
  intros Hm Hk w. specialize (Hm w). unfold Entry.abind.
  destruct (m w) as [w' [a|e]]; cbn [fst snd] in *; [|left; exact Hm].
  destruct (Hk a w') as [Hsame | (Hok & items & Hw)].
  - left. rewrite Hsame. exact Hm.
  - right. split; [exact Hok|]. exists items. rewrite Hw, Hm. reflexivity.
Qed.

Section MainFiles.
Variable net : list PreparedRequest -> PreparedRequest -> send_outcome.
Variable py_repr : json -> string.
Variable extras_default : loc.
Variable dict_slice_error : exn.

Lemma nothing_loop conf q all_ids : forall idxs acc,
  Entry.writes_nothing
    (Entry.fetch_all_pages net extras_default dict_slice_error conf idxs all_ids q acc).
Proof.
  induction idxs as [|i later IH]; intros acc; cbn [Entry.fetch_all_pages].
  - apply nothing_aret.
  - apply nothing_bind; [apply nothing_alift|]. intros chunk.
    destruct (negb (truthy chunk)); [apply nothing_aret|].
    apply nothing_bind; [apply nothing_alift|]. intros ids.
    apply nothing_bind; [apply nothing_alift|]. intros built_url.
    apply nothing_bind; [apply nothing_client_op|]. intros fetch_res.
    apply nothing_bind; [apply nothing_alift|]. intros [|].
    + apply nothing_bind; [apply nothing_alift|]. intros r.
      apply nothing_bind; [apply nothing_alift|]. intros more.
      apply nothing_bind; [apply nothing_sleep|]. intros _. apply IH.
    + apply nothing_bind; [apply nothing_print | intros; apply nothing_aret].
Qed.

Lemma main_with_session_writes (poesessid : string) :
  Entry.writes_on_return_only
    (Entry.main_with_session net py_repr extras_default dict_slice_error poesessid).
Proof.
  unfold Entry.main_with_session.
  apply on_return_bind; [apply nothing_client_op|]. intros dh.
  apply on_return_bind; [apply nothing_client_op|]. intros search_res.
  apply on_return_bind; [apply nothing_alift|]. intros [|].
  - apply on_return_of_nothing, nothing_print.
  - destruct search_res as [sr|]; [|apply on_return_of_nothing, nothing_aret].
    apply on_return_bind; [apply nothing_print|]. intros _.
    apply on_return_bind; [apply nothing_alift|]. intros has_id.
    destruct (negb has_id).
    + apply on_return_of_nothing.
      apply nothing_bind; [apply nothing_print|]. intros _.
      apply nothing_bind; [apply nothing_alift|]. intros all_items.
      apply nothing_bind; [apply nothing_alift|]. intros total.
      apply nothing_print.
    + apply on_return_bind; [apply nothing_alift|]. intros query_id.
      apply on_return_bind; [apply nothing_alift|]. intros all_result_ids.
      apply on_return_bind; [apply nothing_alift|]. intros total.
      apply on_return_bind; [apply nothing_print|]. intros _.
      apply on_return_bind; [apply nothing_loop|]. intros all_items.
      intros w. right. split; [eexists; reflexivity|].
      exists all_items. cbn. rewrite !writes_app. cbn. rewrite app_nil_r. reflexivity.
Qed.

(** [main] writes a file only when it runs to its end: whatever the
    service answers, either nothing was written, or the process ends with
    status 0 and exactly one file, all_items.json, was written.  A search
    or fetch that raises therefore leaves no partial file behind. *)
Theorem main_writes_only_on_normal_exit (poesessid : string) (w : Entry.app_state) :
  Entry.writes (Entry.console
                  (Entry.main net py_repr extras_default dict_slice_error poesessid w).1)
    = Entry.writes (Entry.console w)
  \/
  ((Entry.main net py_repr extras_default dict_slice_error poesessid w).2
     = Entry.ExitCode 0 /\
   exists items,
     Entry.writes (Entry.console
                     (Entry.main net py_repr extras_default dict_slice_error poesessid w).1)
     = Entry.writes (Entry.console w) ++ [("all_items.json", items)]).
Proof.
  unfold Entry.main. destruct (String.eqb poesessid EmptyString).
  - left. cbn. rewrite writes_app. apply app_nil_r.
  - destruct (main_with_session_writes poesessid w) as [Hsame | ([a Hok] & items & Hw)].
    + left.
      destruct (Entry.main_with_session net py_repr extras_default dict_slice_error
                  poesessid w) as [w' [u|e]]; exact Hsame.
    + right.
      destruct (Entry.main_with_session net py_repr extras_default dict_slice_error
                  poesessid w) as [w' [u|e]]; cbn [fst snd] in *; [|discriminate].
      split; [reflexivity | eauto].
Qed.

End MainFiles.

Section MainRun.
Variable net : list PreparedRequest -> PreparedRequest -> send_outcome.
Variable py_repr : json -> string.
Variable extras_default : loc.
Variable dict_slice_error : exn.

(** With responses of the documented shapes -- a search response with an
    id and a list of ids, a fetch response with a non-empty result list and
    no id -- [main] stops after the first page: what [client.search]
    hands back is the fetch response, [main] finds no id in it, reports
    the number of items and returns.  It made two requests, one POST and
    one GET, never entered its paging loop, slept for nothing and wrote no
    file. *)
Theorem main_stops_after_first_page
    (poesessid : string) (w : Entry.app_state)
    (sres fres : Response) sfields ffields (ids : list string) (qid item : json)
    (items : list json) :
  String.eqb poesessid EmptyString = false ->
  (forall hist p, p_method p = "POST" -> net hist p = Sent sres) ->
  (forall hist p, p_method p = "GET" -> net hist p = Sent fres) ->
  raises_for_status sres = false ->
  json_body sres = Some (JObj sfields) ->
  dict_get "result" sfields = Some (JArr (JStr <$> ids)) ->
  dict_get "id" sfields = Some qid ->
  raises_for_status fres = false ->
  json_body fres = Some (JObj ffields) ->
  dict_get "result" ffields = Some (JArr (item :: items)) ->
  dict_get "id" ffields = None ->
  exists w',
    Entry.main net py_repr extras_default dict_slice_error poesessid w
      = (w', Entry.ExitCode 0) /\
    Entry.console w'
      = Entry.console w
        ++ [Entry.AppPrint (Entry.MsgValue (JObj ffields));
            Entry.AppPrint Entry.MsgNoId;
            Entry.AppPrint (Entry.MsgFound (S (length items)))] /\
    p_method <$> sent_requests (trace (Entry.client_state w'))
      = (p_method <$> sent_requests (trace (Entry.client_state w))) ++ ["POST"; "GET"].
Proof.
  intros Hsess Hpost Hget Hs1 Hs2 Hs3 Hs4 Hf1 Hf2 Hf3 Hf4.
  set (s0 := Entry.client_state w).
  set (dh := fresh (dom (heap s0))).
  set (s1 := mkState (<[dh := default_header_map]> (heap s0)) (sess s0) (trace s0)).
  set (conf := mkClientConfig "Standard" poesessid default_url dh logging_WARNING).
  set (cfg := Entry.new_SearchConfig "Obern's Bastion" "Stacked Sabatons").
  assert (Hsearch : exists s3,
            search net py_repr extras_default conf cfg s1 = (s3, Ok (Some (JObj ffields))) /\
            p_method <$> sent_requests (trace s3)
            = (p_method <$> sent_requests (trace s0)) ++ ["POST"; "GET"]).
  { unfold search. change (live cfg) with false. cbv iota.
    eexists. split.
    - erewrite bind_ok; [reflexivity|].
      rewrite (normal_search_is_one_fetch net extras_default conf cfg s1 sres sfields ids qid
                 (Hpost (sent_requests (trace s1))
                    (mkPrepared "POST" (_build_search_url conf) []
                       (built_headers conf s1 extras_default)
                       (Some (_build_trade_request cfg))) eq_refl)
                 Hs1 Hs2 Hs3 Hs4).
      rewrite fetch_run.
      match goal with |- context [net ?h ?p] => rewrite (Hget h p eq_refl) end.
      unfold json_outcome, response_outcome, body_of. rewrite Hf1. cbn [andb rbind].
      rewrite Hf2. reflexivity.
    - cbn [trace after_call]. autorewrite with traces. rewrite !fmap_app.
      rewrite <- app_assoc. reflexivity. }
  destruct Hsearch as (s3 & Hsearch & Hsent).
  exists (Entry.mkApp s3
            (Entry.console w
             ++ [Entry.AppPrint (Entry.MsgValue (JObj ffields));
                 Entry.AppPrint Entry.MsgNoId;
                 Entry.AppPrint (Entry.MsgFound (S (length items)))])).
  split; [|split; [reflexivity | exact Hsent]].
  unfold Entry.main. rewrite Hsess.
  assert (Hrun : Entry.main_with_session net py_repr extras_default dict_slice_error
                   poesessid w
                 = (Entry.mkApp s3
                      (Entry.console w
                       ++ [Entry.AppPrint (Entry.MsgValue (JObj ffields));
                           Entry.AppPrint Entry.MsgNoId;
                           Entry.AppPrint (Entry.MsgFound (S (length items)))]), Ok tt)).
  { unfold Entry.main_with_session.
    erewrite abind_ok by reflexivity.
    fold s0 dh conf cfg.
    erewrite abind_ok
      by (unfold Entry.client_op; cbn [Entry.client_state]; fold s1;
          rewrite Hsearch; reflexivity).
    assert (Hff : ffields <> []) by (intros ->; discriminate).
    erewrite abind_ok
      by (unfold Entry.alift, Entry.no_items_guard;
          destruct ffields; [congruence|];
          cbn [truthy negb py_in py_getitem rbind]; rewrite Hf3;
          cbn [truthy negb rbind]; reflexivity).
    cbv beta iota.
    erewrite abind_ok by reflexivity.
    erewrite abind_ok by (unfold Entry.alift, py_in; rewrite Hf4; reflexivity).
    cbn [negb].
    erewrite abind_ok by reflexivity.
    erewrite abind_ok by (unfold Entry.alift, py_get; rewrite Hf3; reflexivity).
    erewrite abind_ok by reflexivity.
    unfold Entry.app_emit. cbn [Entry.client_state Entry.console length].
    rewrite <- !app_assoc. reflexivity. }
  rewrite Hrun. reflexivity.
Qed.

End MainRun.

Lemma main_stops_witness :
  (Entry.main Scenario.net23 Scenario.repr0 Scenario.extras0 TypeError "0123456789abcdef"
     (Entry.mkApp (mkState {[Scenario.extras0 := ∅]} false []) [])).2
  = Entry.ExitCode 0.
Proof.
  destruct (main_stops_after_first_page Scenario.net23 Scenario.repr0 Scenario.extras0
              TypeError "0123456789abcdef"
              (Entry.mkApp (mkState {[Scenario.extras0 := ∅]} false []) [])
              (mkResponse 200 (Some (Scenario.search_body Scenario.ids23)))
              (mkResponse 200 (Some (JObj [("result", Scenario.ten_items)])))
              (Scenario.search_fields Scenario.ids23)
              [("result", Scenario.ten_items)]
              Scenario.ids23 (JStr "q1") (Scenario.hydrated "id01")
              (Scenario.hydrated <$> ["id02"; "id03"; "id04"; "id05"; "id06"; "id07";
                                      "id08"; "id09"; "id10"]))
    as (w' & Hrun & _); [.. | rewrite Hrun; reflexivity]; try reflexivity.
  - intros hist p Hm. unfold Scenario.net23, Scenario.mock. rewrite Hm. reflexivity.
  - intros hist p Hm. unfold Scenario.net23, Scenario.mock. rewrite Hm. reflexivity.
Defined.
